(** * AI Resume Analyzer (app.py): a shallow embedding and its properties

    The program is one Streamlit script.  Its logic is: extracting the
    text of an uploaded PDF, building prompts by interpolation, calling
    the Gemini API, parsing a leading [Score: N] line of the answer and
    keeping the session state.  This development embeds those parts:

    - Python [str] values are modelled as [string]; characters range over
      the code points below 256, on which the whitespace class of
      [str.strip] and of the regex escape [\s] is
      {9..13, 28..32, 133, 160} and the decimal class of [\d] is '0'..'9';
    - Python [int] is [Z];
    - [st.session_state] is a record, threaded through a small state and
      trace monad [UI]; the trace records the messages shown to the user
      ([st.warning], [st.error], ...) and the calls that leave the script
      (PDF extraction, the Gemini API);
    - the PDF library and the Gemini API are parameters of the model. *)

From Stdlib Require Import String Ascii List ZArith Lia Bool Arith.
Import ListNotations.

Local Open Scope string_scope.

(** ** Text primitives of the Python runtime *)

Module Text.

(** [str.isspace] on one character; also the class [\s] of [re]. *)
Definition is_space (c : ascii) : bool :=
  let n := nat_of_ascii c in
  ((9 <=? n) && (n <=? 13) || (28 <=? n) && (n <=? 32)
   || (n =? 133) || (n =? 160))%nat.

(** The class [\d] of [re]. *)
Definition is_digit (c : ascii) : bool :=
  let n := nat_of_ascii c in ((48 <=? n) && (n <=? 57))%nat.

Definition digit_value (c : ascii) : Z := Z.of_nat (nat_of_ascii c) - 48.

(** The number a run of decimal digits denotes: the value of [int(s)]
    whenever [int(s)] returns (the only use in app.py is on the group
    [(\d+)]). *)
Fixpoint int_from (acc : Z) (s : string) : Z :=
  match s with
  | EmptyString => acc
  | String c s' => int_from (10 * acc + digit_value c) s'
  end.

Definition int (s : string) : Z := int_from 0 s.

(** The interpreter's default limit on the length of a decimal text it
    converts ([sys.get_int_max_str_digits()]). *)
Definition int_max_str_digits : nat := 4300.

(** [int(s)] as the interpreter runs it on a run of digits: the number, or
    [None] for the [ValueError] it raises when the run has more than
    [int_max_str_digits] characters (leading zeros count). *)
Definition int_checked (s : string) : option Z :=
  if (String.length s <=? int_max_str_digits)%nat then Some (int s) else None.

(** Truthiness of a [str]: non-empty. *)
Definition truthy (s : string) : bool :=
  match s with EmptyString => false | String _ _ => true end.

(** [all cls s]: every character of [s] is in the class. *)
Fixpoint all (cls : ascii -> bool) (s : string) : bool :=
  match s with
  | EmptyString => true
  | String c s' => cls c && all cls s'
  end.

(** Does [s] start with a character of the class? *)
Definition starts_with (cls : ascii -> bool) (s : string) : bool :=
  match s with EmptyString => false | String c _ => cls c end.

(** Does [s] end with a character of the class? *)
Fixpoint ends_with (cls : ascii -> bool) (s : string) : bool :=
  match s with
  | EmptyString => false
  | String c EmptyString => cls c
  | String _ s' => ends_with cls s'
  end.

(** [s[n:]] *)
Fixpoint slice_from (n : nat) (s : string) : string :=
  match n, s with
  | O, _ => s
  | S n', String _ s' => slice_from n' s'
  | S _, EmptyString => EmptyString
  end.

(** The longest prefix of [s] in the class, and what follows it. *)
Fixpoint take_while (cls : ascii -> bool) (s : string) : string :=
  match s with
  | EmptyString => EmptyString
  | String c s' => if cls c then String c (take_while cls s') else EmptyString
  end.

Fixpoint drop_while (cls : ascii -> bool) (s : string) : string :=
  match s with
  | EmptyString => EmptyString
  | String c s' => if cls c then drop_while cls s' else s
  end.

(** [s.lstrip()] *)
Definition lstrip (s : string) : string := drop_while is_space s.

(** [s.rstrip()] *)
Fixpoint rstrip (s : string) : string :=
  match s with
  | EmptyString => EmptyString
  | String c s' =>
      match rstrip s' with
      | EmptyString => if is_space c then EmptyString else String c EmptyString
      | r => String c r
      end
  end.

(** [s.strip()] *)
Definition strip (s : string) : string := rstrip (lstrip s).

(** [sep.join(parts)] *)
Fixpoint join (sep : string) (parts : list string) : string :=
  match parts with
  | [] => ""
  | [p] => p
  | p :: ps => p ++ sep ++ join sep ps
  end.

(** [needle in s] *)
Fixpoint contains (needle s : string) : bool :=
  prefix needle s ||
  match s with
  | EmptyString => false
  | String _ s' => contains needle s'
  end.

Definition newline : string := String (ascii_of_nat 10) "".

End Text.

(** ** The fragment of [re] used by app.py

    [re.match] anchors the pattern at the start of the text.  The pattern
    of app.py is a sequence of a literal and two greedy repetitions of a
    character class, the second one captured.  Repetition is greedy with
    backtracking: the longest run is tried first, then shorter ones. *)

Module Re.
Import Text.

Inductive item : Type :=
| Lit (s : string)                                   (* literal text *)
| Rep (cls : ascii -> bool) (min : nat) (capture : bool).
                                 (* cls{min,}, in a group or not *)

Record MatchObject : Type := mkMatch {
  group0 : string;          (* match.group(0): the whole match *)
  groups : list string      (* the captured groups, in order *)
}.

Definition group1 (m : MatchObject) : string := nth 0 (groups m) "".

(** Remove the literal [l] from the front of [s], if it is there. *)
Fixpoint eat (l s : string) : option string :=
  match l, s with
  | EmptyString, _ => Some s
  | String a l', String b s' => if Ascii.eqb a b then eat l' s' else None
  | String _ _, EmptyString => None
  end.

(** Greedy repetition: [taken] is what the repetition has consumed so
    far, [k] continues with the rest of the pattern. *)
Fixpoint greedy {A : Type} (cls : ascii -> bool)
         (k : string -> string -> option A) (taken s : string) : option A :=
  match s with
  | String c s' =>
      if cls c then
        match greedy cls k (taken ++ String c "") s' with
        | Some r => Some r
        | None => k taken s
        end
      else k taken s
  | EmptyString => k taken s
  end.

Fixpoint run (p : list item) (consumed : string) (caps : list string)
         (s : string) : option MatchObject :=
  match p with
  | [] => Some (mkMatch consumed caps)
  | Lit l :: p' =>
      match eat l s with
      | Some s' => run p' (consumed ++ l) caps s'
      | None => None
      end
  | Rep cls min capture :: p' =>
      greedy cls
        (fun taken rest =>
           if (min <=? String.length taken)%nat
           then run p' (consumed ++ taken)
                    (if capture then (caps ++ [taken])%list else caps) rest
           else None)
        "" s
  end.

(** [re.match(p, text)] *)
Definition re_match (p : list item) (text : string) : option MatchObject :=
  run p "" [] text.

(** [r"Score:\s*(\d+)"] *)
Definition score_pattern : list item :=
  [Lit "Score:"; Rep is_space 0 false; Rep is_digit 1 true].

End Re.

(** ** Session state, user-visible events and the [UI] monad *)

(** One entry of [st.session_state.chat_history]: the dict
    [{"role": ..., "content": ...}]. *)
Record ChatMessage : Type := mkMsg {
  role : string;
  content : string
}.

(** [st.session_state].  [processed_file_name] is the one key the script
    reads with [.get]: [None] stands for both an absent key and the value
    [None]. *)
Record SessionState : Type := mkState {
  job_description : string;
  resume_text : string;
  analysis_result : string;
  ats_score : Z;
  chat_history : list ChatMessage;
  pdf_processed : bool;
  processed_file_name : option string
}.

(** The state after the block "Initialize Session State". *)
Definition initial_state : SessionState :=
  mkState "" "" "" 0 [] false None.

Definition set_job_description (v : string) (s : SessionState) : SessionState :=
  mkState v (resume_text s) (analysis_result s) (ats_score s)
          (chat_history s) (pdf_processed s) (processed_file_name s).

Definition set_resume_text (v : string) (s : SessionState) : SessionState :=
  mkState (job_description s) v (analysis_result s) (ats_score s)
          (chat_history s) (pdf_processed s) (processed_file_name s).

Definition set_analysis_result (v : string) (s : SessionState) : SessionState :=
  mkState (job_description s) (resume_text s) v (ats_score s)
          (chat_history s) (pdf_processed s) (processed_file_name s).

Definition set_ats_score (v : Z) (s : SessionState) : SessionState :=
  mkState (job_description s) (resume_text s) (analysis_result s) v
          (chat_history s) (pdf_processed s) (processed_file_name s).

Definition set_chat_history (v : list ChatMessage) (s : SessionState) : SessionState :=
  mkState (job_description s) (resume_text s) (analysis_result s) (ats_score s)
          v (pdf_processed s) (processed_file_name s).

Definition set_pdf_processed (v : bool) (s : SessionState) : SessionState :=
  mkState (job_description s) (resume_text s) (analysis_result s) (ats_score s)
          (chat_history s) v (processed_file_name s).

Definition set_processed_file_name (v : option string) (s : SessionState) : SessionState :=
  mkState (job_description s) (resume_text s) (analysis_result s) (ats_score s)
          (chat_history s) (pdf_processed s) v.

(** Severity of a message box: [st.info], [st.success], [st.warning],
    [st.error]. *)
Inductive Level : Type := Info | Success | Warning | Error.

(** What a run of a handler shows or calls, in order.  Spinners and the
    static layout are not recorded. *)
Inductive Event : Type :=
| Message (lvl : Level) (text : string)
| ChatBubble (who text : string)     (* with st.chat_message(who): st.markdown(text) *)
| ExtractCall (file_name : string)   (* the call extract_text_from_pdf(uploaded_file),
                                        answered by the body or by st.cache_data *)
| ApiCall (prompt : string).         (* model.generate_content(prompt) *)

Definition is_api_call (e : Event) : bool :=
  match e with ApiCall _ => true | _ => false end.

Definition is_extract_call (e : Event) : bool :=
  match e with ExtractCall _ => true | _ => false end.

(** A computation reads and writes the session state and appends to the
    trace.  It always returns: the one exception the code lets escape, the
    [ValueError] of [int] on a run of more than [Text.int_max_str_digits]
    digits in [parse_ats_score], is outside the model, and the theorems
    that reach [int] assume that it returns ([Text.int_checked]). *)
Definition UI (A : Type) : Type := SessionState -> A * SessionState * list Event.

Definition ret {A : Type} (a : A) : UI A := fun s => (a, s, []).

Definition bind {A B : Type} (m : UI A) (f : A -> UI B) : UI B :=
  fun s =>
    let '(a, s1, t1) := m s in
    let '(b, s2, t2) := f a s1 in
    (b, s2, (t1 ++ t2)%list).

Definition get : UI SessionState := fun s => (s, s, []).

Definition modify (f : SessionState -> SessionState) : UI unit :=
  fun s => (tt, f s, []).

Definition emit (e : Event) : UI unit := fun s => (tt, s, [e]).

Declare Scope ui_scope.
Delimit Scope ui_scope with ui.
Notation "x <- m ;; k" := (bind m (fun x => k))
  (at level 61, m at next level, right associativity) : ui_scope.
Notation "m ;; k" := (bind m (fun _ => k))
  (at level 61, right associativity) : ui_scope.
Local Open Scope ui_scope.

Definition st_info (text : string) : UI unit := emit (Message Info text).
Definition st_success (text : string) : UI unit := emit (Message Success text).
Definition st_warning (text : string) : UI unit := emit (Message Warning text).
Definition st_error (text : string) : UI unit := emit (Message Error text).

(** Projections of a run. *)
Definition result_of {A : Type} (r : A * SessionState * list Event) : A := fst (fst r).
Definition state_of {A : Type} (r : A * SessionState * list Event) : SessionState := snd (fst r).
Definition trace_of {A : Type} (r : A * SessionState * list Event) : list Event := snd r.

(** Truthiness of an optional [str] ([None] and the empty string are falsy). *)
Definition truthy_opt (o : option string) : bool :=
  match o with None => false | Some s => Text.truthy s end.

(** ** The script *)

(** What [st.file_uploader] returns: the file name and the bytes of
    [getvalue()].  The uploader is declared with [type="pdf"], so the name
    of an uploaded file ends in [.pdf]; in particular it is not empty. *)
Record UploadedFile : Type := mkFile {
  name : string;
  getvalue : list Byte.byte
}.

(** What PyMuPDF makes of the bytes: the text of each page in page order,
    or an exception (from [fitz.open] or from a [get_text]) whose message
    is [e]. *)
Inductive PdfOutcome : Type :=
| Pages (texts : list string)
| PdfRaises (e : string).

(** What happens inside the [try] of [call_gemini_api] on a prompt.
    [hasattr(response, 'text')] evaluates the accessor [response.text]: it
    is true when the accessor returns, false when the attribute is missing
    ([AttributeError]), and it lets any other exception through.  The
    library's own reply to a blocked prompt is of that last kind: its
    [text] accessor raises [ValueError]. *)
Inductive ApiResponse : Type :=
| RespText (text : string)        (* truthy response, [response.text] returns [text] *)
| RespBlocked (reason : string)   (* truthy response without a [text] attribute,
                                     [prompt_feedback.block_reason] set *)
| RespOther                       (* falsy response, or neither text attribute
                                     nor block reason *)
| RespRaises (e : string)         (* another statement of the [try] raises, message
                                     [e]: building or calling the model, or
                                     reading the block reason *)
| RespTextRaises (e : string).    (* truthy response whose [text] accessor raises,
                                     message [e]: [hasattr] lets it through *)

(** The four analysis buttons. *)
Inductive Button : Type := SummaryBtn | ImproveBtn | KeywordsBtn | MatchBtn.

(** The widget values of one run of the script. *)
Record Inputs : Type := mkInputs {
  jd_input : string;
  pdf_uploader : option UploadedFile;
  clicked : option Button;
  chat_input : option string
}.

Section App.
Import Text.

(** The configured key, the PDF library and the remote model.  The script
    stops at start-up when no key is configured, so the handlers below run
    with a key; [call_gemini_api] tests it again all the same. *)
Variable API_KEY : option string.
Variable fitz_open : list Byte.byte -> PdfOutcome.
Variable generate_content : string -> ApiResponse.

Definition nl : string := newline.
Definition dq : string := String (ascii_of_nat 34) "".

(** *** Helper functions *)

(** The loop [for page in doc: full_text += page.get_text() + "\n\n"]. *)
Definition accumulate_pages (texts : list string) : string :=
  fold_left (fun full_text page => full_text ++ (page ++ nl ++ nl)) texts "".

(** The function as its callers see it through [st.cache_data].  The
    decorator keeps, per uploaded file, what the body returned and showed;
    a later call for the same file does not run the body ([fitz.open])
    again: it returns the kept text and shows the kept messages.  What a
    call returns and shows is therefore what the body returns and shows on
    the file, which is what is modelled; whether the body runs is not
    recorded.  The event [ExtractCall] marks the call, not a run of the
    body. *)
Definition extract_text_from_pdf (uploaded_file : option UploadedFile) : UI string :=
  match uploaded_file with
  | None => ret ""
  | Some f =>
      emit (ExtractCall (name f)) ;;
      match fitz_open (getvalue f) with
      | Pages texts => ret (strip (accumulate_pages texts))
      | PdfRaises e =>
          st_error ("Error extracting PDF text: " ++ e) ;;
          ret ""
      end
  end.

Definition call_gemini_api (prompt : string) : UI (option string) :=
  if negb (truthy_opt API_KEY) then
    st_error "Gemini API Key not configured." ;;
    ret None
  else
    emit (ApiCall prompt) ;;
    match generate_content prompt with
    | RespText text => ret (Some text)
    | RespBlocked reason =>
        st_warning ("API call blocked: " ++ reason) ;;
        ret (Some ("*API call blocked: " ++ reason ++ "*"))
    | RespOther =>
        st_warning "Received an unexpected response structure from Gemini." ;;
        ret (Some "*Received no valid response from the AI.*")
    | RespRaises e | RespTextRaises e =>      (* [except Exception as e] *)
        st_error ("Gemini API Error: " ++ e) ;;
        (if contains "API key not valid" e
         then st_error "Please check if your Gemini API Key is correct and valid."
         else ret tt) ;;
        ret None
    end.

(** On a matched number of more than [int_max_str_digits] digits the
    [int] of the code raises a [ValueError] that nothing catches, here or
    in the % Match handler; the definition follows the code where [int]
    returns ([int_checked]). *)
Definition parse_ats_score (response_text : option string) : UI (Z * string) :=
  match response_text with
  | None => ret (0%Z, "Error receiving response.")
  | Some text =>
      match Re.re_match Re.score_pattern text with
      | Some m =>
          let score := int (Re.group1 m) in
          let explanation := strip (slice_from (String.length (Re.group0 m)) text) in
          ret (Z.min 100 (Z.max 0 score), explanation)
      | None =>
          st_warning "Could not parse ATS score from the response." ;;
          ret (0%Z, text)
      end
  end.

(** *** Processing of the uploaded file (the block under [col2]) *)

(** [not st.session_state.get("processed_file_name") or
     st.session_state.processed_file_name != uploaded_file.name] *)
Definition is_new_file (s : SessionState) (f : UploadedFile) : bool :=
  match processed_file_name s with
  | None => true
  | Some p => negb (truthy p) || negb (String.eqb p (name f))
  end.

Definition process_upload (uploaded_file : option UploadedFile) : UI unit :=
  match uploaded_file with
  | None => ret tt
  | Some f =>
      s <- get ;;
      (if is_new_file s f then
         extracted_text <- extract_text_from_pdf (Some f) ;;
         if truthy extracted_text then
           modify (set_resume_text extracted_text) ;;
           modify (set_pdf_processed true) ;;
           modify (set_processed_file_name (Some (name f))) ;;
           modify (set_analysis_result "") ;;
           modify (set_ats_score 0) ;;
           modify (set_chat_history []) ;;
           st_success ("Successfully extracted text from '" ++ name f ++ "'")
         else
           modify (set_pdf_processed false) ;;
           modify (set_processed_file_name None)
       else ret tt) ;;
      st_info ("Current resume: '" ++ name f ++ "'")
  end.

(** *** Prompt templates (the f-strings of the handlers) *)

Definition summary_prompt (resume : string) : string :=
  join nl
    ["Provide a concise summary (2-3 sentences) highlighting the key qualifications and experience from the following resume text:";
     "";
     "Resume Text:"; "---"; resume; "---"].

Definition improve_prompt (resume : string) : string :=
  join nl
    ["Analyze the following resume text and provide 3-5 specific, actionable suggestions for improvement. Format the suggestions clearly using bullet points. Focus on areas like skills presentation, quantifying achievements, clarity, and structure. Mention how these improvements could better align with typical job requirements.";
     "";
     "Resume Text:"; "---"; resume; "---"].

Definition keywords_prompt (jd resume : string) : string :=
  join nl
    ["Compare the following resume text against the job description. Identify and list key skills, technologies, or qualifications mentioned in the job description that are either missing or significantly underrepresented in the resume. Format as a list.";
     "";
     "Job Description:"; "---"; jd; "---";
     "";
     "Resume Text:"; "---"; resume; "---"].

Definition match_prompt (jd resume : string) : string :=
  join nl
    ["Analyze the alignment between the resume and job description. Consider keywords, skills, experience relevance. Provide an estimated percentage match score (integer 0-100).";
     "**Output Format:** Start the response *only* with " ++ dq ++ "Score: [percentage]" ++ dq
       ++ " on the first line, followed by a brief explanation on subsequent lines. Example:";
     "Score: 75";
     "The resume shows good alignment...";
     "";
     "Job Description:"; "---"; jd; "---";
     "";
     "Resume Text:"; "---"; resume; "---"].

(** [l[-n:]] for [n > 0]. *)
Definition last_n {A : Type} (n : nat) (l : list A) : list A :=
  skipn (List.length l - n) l.

(** [f"{msg['role']}: {msg['content']}"] *)
Definition render_message (msg : ChatMessage) : string :=
  role msg ++ ": " ++ content msg.

(** ["\n".join([... for msg in chat_history[-5:]])] *)
Definition history_context (history : list ChatMessage) : string :=
  join nl (map render_message (last_n 5 history)).

Definition chat_prompt (jd resume context query : string) : string :=
  join nl
    ["You are a helpful AI assistant analyzing a resume against a job description.";
     "Current Job Description Context:"; "---";
     (if truthy jd then jd else "N/A");
     "---";
     "Full Resume Text:"; "---"; resume; "---";
     "Previous Conversation (last few messages):";
     context;
     "User Query: " ++ query;
     "";
     "Provide a helpful and relevant response based on the resume and the conversation context, using Markdown formatting where appropriate (like lists or bold text)."].

(** *** The analysis buttons *)

Definition resume_warning : string := "Please upload and process a resume first.".
Definition jd_warning : string := "Please enter the Job Description first.".

(** [if result is not None: analysis_result = result; ats_score = 0] *)
Definition store_plain_result (result : option string) : UI unit :=
  match result with
  | Some r =>
      modify (set_analysis_result r) ;;
      modify (set_ats_score 0)
  | None => ret tt
  end.

Definition summary_btn : UI unit :=
  s <- get ;;
  if truthy (resume_text s) then
    result <- call_gemini_api (summary_prompt (resume_text s)) ;;
    store_plain_result result
  else st_warning resume_warning.

Definition improve_btn : UI unit :=
  s <- get ;;
  if truthy (resume_text s) then
    result <- call_gemini_api (improve_prompt (resume_text s)) ;;
    store_plain_result result
  else st_warning resume_warning.

Definition keywords_btn : UI unit :=
  s <- get ;;
  if truthy (resume_text s) && truthy (job_description s) then
    result <- call_gemini_api (keywords_prompt (job_description s) (resume_text s)) ;;
    store_plain_result result
  else if negb (truthy (job_description s)) then st_warning jd_warning
  else st_warning resume_warning.

Definition match_btn : UI unit :=
  s <- get ;;
  if truthy (resume_text s) && truthy (job_description s) then
    result <- call_gemini_api (match_prompt (job_description s) (resume_text s)) ;;
    match result with
    | Some r =>
        parsed <- parse_ats_score (Some r) ;;
        modify (set_ats_score (fst parsed)) ;;
        modify (set_analysis_result
                  ("**ATS Score Explanation:**" ++ nl ++ nl ++ snd parsed))
    | None => ret tt
    end
  else if negb (truthy (job_description s)) then st_warning jd_warning
  else st_warning resume_warning.

Definition press (b : Button) : UI unit :=
  match b with
  | SummaryBtn => summary_btn
  | ImproveBtn => improve_btn
  | KeywordsBtn => keywords_btn
  | MatchBtn => match_btn
  end.

(** *** The chat *)

Definition chat_error : string :=
  "*Sorry, I encountered an error processing your request.*".

(** [st.session_state.chat_history.append(msg)] *)
Definition append_chat (msg : ChatMessage) : UI unit :=
  s <- get ;;
  modify (set_chat_history (chat_history s ++ [msg])%list).

(** The body of [if prompt := st.chat_input(...)]. *)
Definition chat_turn (prompt : string) : UI unit :=
  s <- get ;;
  if negb (truthy (resume_text s)) then
    st_warning "Please upload and process a resume before chatting."
  else
    append_chat (mkMsg "user" prompt) ;;
    emit (ChatBubble "user" prompt) ;;
    s <- get ;;
    response <- call_gemini_api
                  (chat_prompt (job_description s) (resume_text s)
                               (history_context (chat_history s)) prompt) ;;
    if truthy_opt response then           (* [if response:] *)
      match response with
      | Some r =>
          append_chat (mkMsg "assistant" r) ;;
          emit (ChatBubble "assistant" r)
      | None => ret tt                    (* not reached: [None] is falsy *)
      end
    else
      append_chat (mkMsg "assistant" chat_error) ;;
      emit (ChatBubble "assistant" chat_error).

(** *** One run of the script

    Streamlit runs the script from the top on every interaction; at
    most one button is pressed or one chat line submitted in a run. *)

Fixpoint show_history (history : list ChatMessage) : UI unit :=
  match history with
  | [] => ret tt
  | msg :: rest => emit (ChatBubble (role msg) (content msg)) ;; show_history rest
  end.

Definition script (i : Inputs) : UI unit :=
  modify (set_job_description (jd_input i)) ;;
  process_upload (pdf_uploader i) ;;
  s <- get ;;
  if pdf_processed s then
    (match clicked i with
     | Some b => press b
     | None => ret tt
     end) ;;
    s <- get ;;
    show_history (chat_history s) ;;
    match chat_input i with
    | Some prompt => if truthy prompt then chat_turn prompt else ret tt
    | None => ret tt
    end
  else st_info "Upload a PDF resume to get started.".

End App.

(** ** Start-up (the blocks "Load API Key" and "Initialize Gemini Client") *)

(** What [st.secrets["GEMINI_API_KEY"]] does: it yields the stored value
    or raises one of the two exceptions the script catches. *)
Inductive SecretsLookup : Type :=
| SecretFound (value : string)
| SecretKeyError              (* no such key in the secrets *)
| SecretsFileNotFound.        (* no secrets file at all *)

(** [API_KEY]: the secret when the lookup succeeds, else
    [os.getenv("GEMINI_API_KEY")] ([getenv], read after [load_dotenv()]). *)
Definition load_api_key (secrets : SecretsLookup) (getenv : option string)
  : option string :=
  match secrets with
  | SecretFound value => Some value
  | SecretKeyError | SecretsFileNotFound => getenv
  end.

(** The text of the start-up error; its first character, a red circle, is
    held as the bytes of its UTF-8 encoding. *)
Definition key_missing_error : string :=
  "🔴 Error: Gemini API Key not found. Please set it in Streamlit secrets or a .env file.".

(** The whole file, once: with a key the script runs; without one the
    error is shown and [st.stop()] ends the run before anything else. *)
Definition app_py (secrets : SecretsLookup) (getenv : option string)
              (fitz_open : list Byte.byte -> PdfOutcome)
              (generate_content : string -> ApiResponse) (i : Inputs) : UI unit :=
  let API_KEY := load_api_key secrets getenv in
  if truthy_opt API_KEY then script API_KEY fitz_open generate_content i
  else st_error key_missing_error.

(** ** Vocabulary of the properties *)

(** The text starts with [Score:], a run of whitespace (possibly empty) and
    at least one decimal digit: the texts [r"Score:\s*(\d+)"] matches. *)
Definition leading_score_line (text : string) : Prop :=
  exists ws ds rest,
    text = "Score:" ++ ws ++ ds ++ rest /\
    Text.all Text.is_space ws = true /\
    Text.all Text.is_digit ds = true /\
    ds <> "".

(** [clamp n]: [n] brought into the range 0..100. *)
Definition clamp (n : Z) : Z := Z.min 100 (Z.max 0 n).

Definition no_api_call (t : list Event) : Prop :=
  forallb (fun e => negb (is_api_call e)) t = true.

(** The run does not call [extract_text_from_pdf]. *)
Definition no_extraction (t : list Event) : Prop :=
  forallb (fun e => negb (is_extract_call e)) t = true.

(** The prompts sent to the model during a run, in order. *)
Fixpoint prompts_sent (t : list Event) : list string :=
  match t with
  | [] => []
  | ApiCall p :: t' => p :: prompts_sent t'
  | _ :: t' => prompts_sent t'
  end.

(** The messages shown at a given level during a run, in order. *)
Fixpoint messages_at (lvl : Level) (t : list Event) : list string :=
  match t with
  | [] => []
  | Message l text :: t' =>
      match l, lvl with
      | Info, Info | Success, Success | Warning, Warning | Error, Error =>
          text :: messages_at lvl t'
      | _, _ => messages_at lvl t'
      end
  | _ :: t' => messages_at lvl t'
  end.

(** The prompt a button sends and the fields it needs. *)
Definition prompt_of (b : Button) (s : SessionState) : string :=
  match b with
  | SummaryBtn => summary_prompt (resume_text s)
  | ImproveBtn => improve_prompt (resume_text s)
  | KeywordsBtn => keywords_prompt (job_description s) (resume_text s)
  | MatchBtn => match_prompt (job_description s) (resume_text s)
  end.

Definition ready (b : Button) (s : SessionState) : bool :=
  match b with
  | SummaryBtn | ImproveBtn => Text.truthy (resume_text s)
  | KeywordsBtn | MatchBtn =>
      Text.truthy (resume_text s) && Text.truthy (job_description s)
  end.

(** ** Sample environments and inputs *)

Definition sample_key : option string := Some "sample-key".

(** A PDF library that rejects the empty byte stream, reads two pages from
    a one-byte stream and two blank pages from anything longer. *)
Definition sample_fitz (bytes : list Byte.byte) : PdfOutcome :=
  match bytes with
  | [] => PdfRaises "cannot open empty document"
  | [_] => Pages ["  Jane Doe" ++ nl ++ "Engineer" ++ nl; "Skills:  Rocq " ++ nl]
  | _ => Pages [" " ++ nl; nl]
  end.

Definition good_file : UploadedFile := mkFile "cv.pdf" [Byte.x25].
Definition broken_file : UploadedFile := mkFile "broken.pdf" [].
Definition blank_file : UploadedFile := mkFile "blank.pdf" [Byte.x25; Byte.x50].

(** A model that answers every prompt with the same text. *)
Definition constant_api (answer : string) (prompt : string) : ApiResponse :=
  RespText answer.

Definition sample_message (n : string) (who : string) : ChatMessage :=
  mkMsg who ("message " ++ n).

Definition twelve_messages : list ChatMessage :=
  [sample_message "1" "user"; sample_message "2" "assistant";
   sample_message "3" "user"; sample_message "4" "assistant";
   sample_message "5" "user"; sample_message "6" "assistant";
   sample_message "7" "user"; sample_message "8" "assistant";
   sample_message "9" "user"; sample_message "10" "assistant";
   sample_message "11" "user"; sample_message "12" "assistant"].

(** A session in which [old.pdf] was processed, scored and discussed. *)
Definition analysed_state : SessionState :=
  mkState "Rocq engineer wanted" "Jane Doe, engineer"
          "**ATS Score Explanation:** good" 75
          twelve_messages true (Some "old.pdf").

(** A reply whose explanation ends in whitespace. *)
Definition reply_tail : string := nl ++ "Good fit " ++ nl.

(** ** Sessions *)

(** The states a session can be in: the initial one and those reached from
    it by runs of the script, each with its own widget values and its own
    behaviour of the key, the PDF library and the model. *)
Inductive reachable : SessionState -> Prop :=
| reach_initial : reachable initial_state
| reach_rerun (API_KEY : option string)
              (fitz_open : list Byte.byte -> PdfOutcome)
              (generate_content : string -> ApiResponse)
              (i : Inputs) (s : SessionState) :
    reachable s ->
    reachable (state_of (script API_KEY fitz_open generate_content i s)).

(** The score is a percentage; the resume text carries no whitespace at
    its ends; a resume counts as processed exactly when a processed file
    name is recorded, and then its text is not empty. *)
Definition consistent (s : SessionState) : Prop :=
  (0 <= ats_score s <= 100)%Z /\
  Text.starts_with Text.is_space (resume_text s) = false /\
  Text.ends_with Text.is_space (resume_text s) = false /\
  (pdf_processed s = true <-> exists n, processed_file_name s = Some n) /\
  (pdf_processed s = true -> Text.truthy (resume_text s) = true).

(** A chat history made of whole turns: a non-empty question as [user],
    then a non-empty [assistant] message. *)
Inductive dialogue : list ChatMessage -> Prop :=
| dialogue_empty : dialogue []
| dialogue_turn (history : list ChatMessage) (question answer : string) :
    dialogue history -> question <> "" -> answer <> "" ->
    dialogue (history ++ [mkMsg "user" question; mkMsg "assistant" answer]).

(** A run in which a resume is uploaded and a first question asked. *)
Definition first_question : Inputs :=
  mkInputs "Rocq engineer wanted" (Some good_file) None (Some "What next?").

(** [needle] occurs in [s]. *)
Definition occurs_in (needle s : string) : Prop :=
  exists before after, s = before ++ needle ++ after.

(** A model that blocks every prompt the way the library does: the reply
    has no candidate and its [text] accessor raises. *)
Definition blocking_api (prompt : string) : ApiResponse :=
  RespTextRaises "The `response.text` quick accessor only works when the response contains a valid `Part`.".

(** ** Facts about the text primitives *)

Module TextFacts.
Import Text.

Lemma append_nil_r (s : string) : s ++ "" = s.
Proof. induction s as [|c s IH]; simpl; [reflexivity | now rewrite IH]. Qed.

Lemma append_assoc (a b c : string) : (a ++ b) ++ c = a ++ (b ++ c).
Proof. induction a as [|x a IH]; simpl; [reflexivity | now rewrite IH]. Qed.

Lemma length_app (a b : string) :
  String.length (a ++ b) = (String.length a + String.length b)%nat.
Proof. induction a as [|x a IH]; simpl; [reflexivity | now rewrite IH]. Qed.

Lemma slice_from_app (a b : string) : slice_from (String.length a) (a ++ b) = b.
Proof. induction a as [|x a IH]; simpl; [now destruct b | exact IH]. Qed.

Lemma all_app cls (a b : string) : all cls (a ++ b) = all cls a && all cls b.
Proof.
  induction a as [|x a IH]; simpl; [reflexivity|].
  now rewrite IH, andb_assoc.
Qed.

Lemma digit_not_space (c : ascii) : is_digit c = true -> is_space c = false.
Proof.
  unfold is_digit, is_space. cbv zeta.
  generalize (nat_of_ascii c) as n. intros n H.
  apply andb_true_iff in H as [H1 H2].
  apply Nat.leb_le in H1. apply Nat.leb_le in H2.
  repeat (apply orb_false_iff; split);
    try (apply andb_false_iff);
    try (left; apply Nat.leb_gt; lia);
    try (right; apply Nat.leb_gt; lia);
    try (apply Nat.eqb_neq; lia).
Qed.

Lemma span_eq cls (s : string) : s = take_while cls s ++ drop_while cls s.
Proof.
  induction s as [|c s IH]; simpl; [reflexivity|].
  destruct (cls c); simpl; [now rewrite <- IH | reflexivity].
Qed.

Lemma all_take_while cls (s : string) : all cls (take_while cls s) = true.
Proof.
  induction s as [|c s IH]; simpl; [reflexivity|].
  destruct (cls c) eqn:E; simpl; [now rewrite E | reflexivity].
Qed.

Lemma starts_drop_while cls (s : string) : starts_with cls (drop_while cls s) = false.
Proof.
  induction s as [|c s IH]; simpl; [reflexivity|].
  destruct (cls c) eqn:E; simpl; [exact IH | exact E].
Qed.

Lemma take_while_all cls (run rest : string) :
  all cls run = true -> starts_with cls rest = false ->
  take_while cls (run ++ rest) = run /\ drop_while cls (run ++ rest) = rest.
Proof.
  intros Hall Hrest. induction run as [|c run IH]; simpl in *.
  - destruct rest as [|c r]; simpl in *; [auto | now rewrite Hrest].
  - apply andb_true_iff in Hall as [Hc Hall]. rewrite Hc.
    destruct (IH Hall) as [-> ->]. auto.
Qed.

(** *** [strip] *)

Lemma rstrip_lstrip (s : string) : rstrip (lstrip s) = lstrip (rstrip s).
Proof.
  unfold lstrip. induction s as [|c s IH]; [reflexivity|].
  cbn [drop_while rstrip]. destruct (is_space c) eqn:E.
  - rewrite IH. destruct (rstrip s) as [|d r]; [reflexivity|].
    cbn [drop_while]. now rewrite E.
  - cbn [rstrip]. destruct (rstrip s) as [|d r]; cbn [drop_while]; now rewrite E.
Qed.

Lemma rstrip_all_space (ws : string) : all is_space ws = true -> rstrip ws = "".
Proof.
  induction ws as [|c ws IH]; simpl; [reflexivity|].
  intros H. apply andb_true_iff in H as [Hc H]. now rewrite (IH H), Hc.
Qed.

Lemma rstrip_app_space (s ws : string) :
  all is_space ws = true -> rstrip (s ++ ws) = rstrip s.
Proof.
  intros H. induction s as [|c s IH]; simpl.
  - now apply rstrip_all_space.
  - now rewrite IH.
Qed.

Lemma strip_app_space (s ws : string) :
  all is_space ws = true -> strip (s ++ ws) = strip s.
Proof.
  intros H. unfold strip.
  now rewrite !rstrip_lstrip, rstrip_app_space.
Qed.

Lemma rstrip_split (s : string) :
  exists trail, s = rstrip s ++ trail /\ all is_space trail = true.
Proof.
  induction s as [|c s (trail & Hs & Ht)].
  - exists "". auto.
  - cbn [rstrip]. destruct (rstrip s) as [|d r] eqn:E.
    + destruct (is_space c) eqn:Ec.
      * exists (String c s). split; [reflexivity|].
        simpl. rewrite Ec. simpl in Hs. now rewrite Hs.
      * exists trail. split; [|exact Ht]. simpl. simpl in Hs. now rewrite <- Hs.
    + exists trail. split; [|exact Ht]. simpl. simpl in Hs. now rewrite <- Hs.
Qed.

Lemma ends_rstrip (s : string) : ends_with is_space (rstrip s) = false.
Proof.
  induction s as [|c s IH]; [reflexivity|].
  cbn [rstrip]. destruct (rstrip s) as [|d r] eqn:E.
  - destruct (is_space c) eqn:Ec; simpl; [reflexivity | exact Ec].
  - exact IH.
Qed.

Lemma starts_rstrip cls (s : string) :
  starts_with cls s = false -> starts_with cls (rstrip s) = false.
Proof.
  destruct s as [|c s]; [reflexivity|].
  cbn [rstrip starts_with]. intros H.
  destruct (rstrip s); [destruct (is_space c)|]; simpl; auto.
Qed.

(** [strip] removes a run of whitespace at each end and nothing else. *)
Lemma strip_split (s : string) :
  exists lead trail,
    s = lead ++ strip s ++ trail /\
    all is_space lead = true /\ all is_space trail = true /\
    starts_with is_space (strip s) = false /\
    ends_with is_space (strip s) = false.
Proof.
  unfold strip, lstrip.
  destruct (rstrip_split (drop_while is_space s)) as (trail & Hs & Ht).
  exists (take_while is_space s), trail. repeat split.
  - rewrite <- Hs. apply span_eq.
  - apply all_take_while.
  - exact Ht.
  - apply starts_rstrip, starts_drop_while.
  - apply ends_rstrip.
Qed.

End TextFacts.

(** ** Facts about the matcher *)

Module ReFacts.
Import Text Re TextFacts.

Lemma eat_app (l s : string) : eat l (l ++ s) = Some s.
Proof.
  induction l as [|a l IH]; simpl; [now destruct s|].
  now rewrite Ascii.eqb_refl.
Qed.

Lemma eat_Some (l s s' : string) : eat l s = Some s' -> s = l ++ s'.
Proof.
  revert s. induction l as [|a l IH]; intros s H.
  - destruct s; simpl in H; now inversion H.
  - destruct s as [|b s]; simpl in H; [discriminate|].
    destruct (Ascii.eqb a b) eqn:E; [|discriminate].
    apply Ascii.eqb_eq in E. subst b. simpl. now rewrite (IH _ H).
Qed.

(** A repetition stops where the class stops. *)
Lemma greedy_stop {A} cls (k : string -> string -> option A) (taken s : string) :
  starts_with cls s = false -> greedy cls k taken s = k taken s.
Proof. destruct s as [|c s]; simpl; [reflexivity | now intros ->]. Qed.

(** The longest run is tried first. *)
Lemma greedy_first {A} cls (k : string -> string -> option A) (r : A) :
  forall (w taken rest : string),
    all cls w = true -> starts_with cls rest = false ->
    k (taken ++ w) rest = Some r ->
    greedy cls k taken (w ++ rest) = Some r.
Proof.
  induction w as [|c w IH]; intros taken rest Hall Hrest Hk.
  - rewrite append_nil_r in Hk. simpl. now rewrite greedy_stop.
  - simpl in Hall. apply andb_true_iff in Hall as [Hc Hall].
    simpl. rewrite Hc. rewrite (IH (taken ++ String c "") rest Hall Hrest).
    + reflexivity.
    + now rewrite append_assoc.
Qed.

(** If no split of the run lets the rest of the pattern match, the
    repetition fails. *)
Lemma greedy_none {A} cls (k : string -> string -> option A) :
  forall (w taken rest : string),
    all cls w = true -> starts_with cls rest = false ->
    (forall pre post, w = pre ++ post -> k (taken ++ pre) (post ++ rest) = None) ->
    greedy cls k taken (w ++ rest) = None.
Proof.
  induction w as [|c w IH]; intros taken rest Hall Hrest Hk.
  - simpl. rewrite greedy_stop by exact Hrest.
    specialize (Hk "" "" eq_refl). now rewrite append_nil_r in Hk.
  - simpl in Hall. apply andb_true_iff in Hall as [Hc Hall].
    simpl. rewrite Hc. rewrite IH; [| exact Hall | exact Hrest |].
    + specialize (Hk "" (String c w) eq_refl). now rewrite append_nil_r in Hk.
    + intros pre post E. rewrite append_assoc. simpl.
      apply (Hk (String c pre) post). simpl. now rewrite E.
Qed.

Lemma truthy_length (s : string) : truthy s = (1 <=? String.length s)%nat.
Proof. now destruct s. Qed.

(** [re.match(r"Score:\s*(\d+)", text)] without backtracking: whitespace
    and digits are disjoint, so the two runs are the longest ones. *)
Lemma match_score_pattern (text : string) :
  re_match score_pattern text =
  match eat "Score:" text with
  | None => None
  | Some s1 =>
      let ws := take_while is_space s1 in
      let ds := take_while is_digit (drop_while is_space s1) in
      if truthy ds then Some (mkMatch ("Score:" ++ ws ++ ds) [ds]) else None
  end.
Proof.
  unfold re_match, score_pattern. cbn [run].
  destruct (eat "Score:" text) as [s1|]; [|reflexivity].
  cbv zeta.
  set (ws := take_while is_space s1). set (s2 := drop_while is_space s1).
  set (ds := take_while is_digit s2). set (s3 := drop_while is_digit s2).
  assert (E1 : s1 = ws ++ s2) by apply span_eq.
  assert (E2 : s2 = ds ++ s3) by apply span_eq.
  assert (Hws : all is_space ws = true) by apply all_take_while.
  assert (Hds : all is_digit ds = true) by apply all_take_while.
  assert (Hs2 : starts_with is_space s2 = false) by apply starts_drop_while.
  assert (Hs3 : starts_with is_digit s3 = false) by apply starts_drop_while.
  rewrite E1 at 1. clearbody ws ds s2 s3.
  destruct (truthy ds) eqn:Hd.
  - apply greedy_first; [exact Hws | exact Hs2 |].
    cbn [Nat.leb append]. rewrite E2 at 1.
    apply greedy_first; [exact Hds | exact Hs3 |].
    destruct ds; [discriminate|].
    cbn. reflexivity.
  - apply greedy_none; [exact Hws | exact Hs2 |].
    intros pre post E. cbn [Nat.leb run].
    assert (Hpost : starts_with is_digit (post ++ s2) = false).
    { destruct post as [|c post]; simpl.
      - destruct ds; [|discriminate]. simpl in E2. now rewrite E2.
      - assert (Hc : is_space c = true).
        { rewrite E, all_app in Hws. apply andb_true_iff in Hws as [_ Hp].
          simpl in Hp. now apply andb_true_iff in Hp as [Hp _]. }
        destruct (is_digit c) eqn:Ed; [|reflexivity].
        apply digit_not_space in Ed. congruence. }
    rewrite greedy_stop by exact Hpost. reflexivity.
Qed.

(** The pattern matches exactly the texts with a leading score line. *)
Lemma match_score_iff (text : string) :
  (exists m, re_match score_pattern text = Some m) <-> leading_score_line text.
Proof.
  rewrite match_score_pattern. split.
  - intros [m H]. destruct (eat "Score:" text) as [s1|] eqn:E; [|discriminate].
    cbv zeta in H.
    destruct (take_while is_digit (drop_while is_space s1)) as [|d ds] eqn:Ed;
      [discriminate|].
    exists (take_while is_space s1), (String d ds),
           (drop_while is_digit (drop_while is_space s1)).
    repeat split.
    + rewrite <- Ed, <- span_eq, <- span_eq. now apply eat_Some.
    + apply all_take_while.
    + rewrite <- Ed. apply all_take_while.
    + discriminate.
  - intros (ws & ds & rest & -> & Hws & Hds & Hne).
    rewrite eat_app. cbv zeta.
    destruct ds as [|d ds]; [contradiction|].
    simpl in Hds. apply andb_true_iff in Hds as [Hd Hds].
    assert (Hs : starts_with is_space (String d ds ++ rest) = false)
      by (simpl; now apply digit_not_space).
    destruct (take_while_all is_space ws _ Hws Hs) as [_ ->].
    simpl. rewrite Hd. simpl. eauto.
Qed.

(** The match object on a text whose score line has digits [ds], followed
    by something that is not a digit. *)
Lemma match_score_line (ws ds rest : string) :
  all is_space ws = true -> all is_digit ds = true -> ds <> "" ->
  starts_with is_digit rest = false ->
  re_match score_pattern ("Score:" ++ ws ++ ds ++ rest)
  = Some (mkMatch ("Score:" ++ ws ++ ds) [ds]).
Proof.
  intros Hws Hds Hne Hrest. rewrite match_score_pattern, eat_app. cbv zeta.
  assert (Hs : starts_with is_space (ds ++ rest) = false).
  { destruct ds as [|d ds]; [contradiction|]. simpl in *.
    apply andb_true_iff in Hds as [Hd _]. now apply digit_not_space. }
  destruct (take_while_all is_space ws _ Hws Hs) as [-> ->].
  destruct (take_while_all is_digit ds _ Hds Hrest) as [-> _].
  destruct ds; [contradiction | reflexivity].
Qed.

End ReFacts.

(** ** The response interpreter *)

Import Text.

(** What [int_checked] returns is the number the digits denote. *)
Lemma int_checked_Some (ds : string) (n : Z) :
  int_checked ds = Some n ->
  n = int ds /\ (String.length ds <= int_max_str_digits)%nat.
Proof.
  unfold int_checked.
  destruct (String.length ds <=? int_max_str_digits)%nat eqn:E; [|discriminate].
  intros H. inversion H. split; [reflexivity | now apply Nat.leb_le].
Qed.

(** C1, as the code has it.  On a text made of [Score:], a run of
    whitespace, the digits of N and a rest that does not go on with a
    digit, and when [int] returns N on those digits (they are at most
    4300), [parse_ats_score] returns N clamped to 0..100 and the rest with
    the whitespace at both of its ends removed ([str.strip]); the session
    state is untouched and nothing is shown.  Nothing is stated about
    longer runs of digits.  The reply "Score: 137", newline, "Great fit"
    gives 100 and "Great fit"; "Score: -5", newline, "Bad" is not matched
    by the pattern. *)
Theorem parse_ats_score_match :
  (forall (ws ds rest : string) (n : Z) (s : SessionState),
      all is_space ws = true ->
      all is_digit ds = true -> ds <> "" ->
      starts_with is_digit rest = false ->
      int_checked ds = Some n ->
      parse_ats_score (Some ("Score:" ++ ws ++ ds ++ rest)) s
      = ((clamp n, strip rest), s, []))
  /\ parse_ats_score (Some ("Score: 137" ++ nl ++ "Great fit")) initial_state
     = ((100%Z, "Great fit"), initial_state, [])
  /\ Re.re_match Re.score_pattern ("Score: -5" ++ nl ++ "Bad") = None.
Proof.
  split; [|split; reflexivity].
  intros ws ds rest n s Hws Hds Hne Hrest Hint.
  apply int_checked_Some in Hint as [-> _]. unfold parse_ats_score.
  rewrite (ReFacts.match_score_line ws ds rest Hws Hds Hne Hrest).
  cbn [Re.group0 Re.group1 Re.groups nth].
  replace ("Score:" ++ ws ++ ds ++ rest) with (("Score:" ++ ws ++ ds) ++ rest).
  - now rewrite TextFacts.slice_from_app.
  - cbn [append]. now rewrite TextFacts.append_assoc.
Qed.

Lemma parse_ats_score_match_witness :
  all is_space " " = true /\ all is_digit "42" = true /\ "42" <> "" /\
  starts_with is_digit (nl ++ "ok  ") = false /\
  int_checked "42" = Some 42%Z /\
  parse_ats_score (Some ("Score:" ++ " " ++ "42" ++ (nl ++ "ok  "))) initial_state
  = ((42%Z, "ok"), initial_state, []).
Proof.
  split; [reflexivity|]. split; [reflexivity|]. split; [discriminate|].
  split; [reflexivity|]. split; [reflexivity|].
  apply (proj1 parse_ats_score_match " " "42" (nl ++ "ok  ") 42%Z initial_state);
    solve [reflexivity | discriminate].
Defined.

(** C1 as stated (explanation only left-trimmed) fails: after
    "Score: 75" the reply goes on with a newline, "Good fit ", a newline;
    the explanation returned is "Good fit", while the left-trimmed rest
    keeps its trailing blank and newline. *)
Lemma parse_ats_score_not_left_trim :
  all is_space " " = true /\ all is_digit "75" = true /\
  starts_with is_digit reply_tail = false /\
  int_checked "75" = Some 75%Z /\
  result_of (parse_ats_score (Some ("Score:" ++ " " ++ "75" ++ reply_tail)) initial_state)
  = (75%Z, "Good fit") /\
  lstrip reply_tail = "Good fit " ++ nl /\
  result_of (parse_ats_score (Some ("Score:" ++ " " ++ "75" ++ reply_tail)) initial_state)
  <> (clamp 75, lstrip reply_tail).
Proof.
  repeat (split; [reflexivity|]). intros H. vm_compute in H. discriminate H.
Qed.

(** C2.  On a text without a leading score line [parse_ats_score] returns
    score 0 and the text itself, unchanged, after one warning; on [None]
    it returns score 0 and the fixed text "Error receiving response.".
    The session state is untouched in both cases. *)
Theorem parse_ats_score_no_match (text : string) (s : SessionState) :
  ~ leading_score_line text ->
  parse_ats_score (Some text) s
  = ((0%Z, text), s,
     [Message Warning "Could not parse ATS score from the response."])
  /\ parse_ats_score None s = ((0%Z, "Error receiving response."), s, []).
Proof.
  intros Hno. split; [|reflexivity]. unfold parse_ats_score.
  destruct (Re.re_match Re.score_pattern text) as [m|] eqn:E; [|reflexivity].
  exfalso. apply Hno, ReFacts.match_score_iff. now exists m.
Qed.

Lemma parse_ats_score_no_match_witness :
  ~ leading_score_line ("Score: -5" ++ nl ++ "Bad") /\
  parse_ats_score (Some ("Score: -5" ++ nl ++ "Bad")) initial_state
  = ((0%Z, "Score: -5" ++ nl ++ "Bad"), initial_state,
     [Message Warning "Could not parse ATS score from the response."]).
Proof.
  assert (Hno : ~ leading_score_line ("Score: -5" ++ nl ++ "Bad")).
  { intros H. apply ReFacts.match_score_iff in H. destruct H as [m H].
    vm_compute in H. discriminate H. }
  split; [exact Hno|].
  exact (proj1 (parse_ats_score_no_match _ initial_state Hno)).
Defined.

(** ** The document ingestor *)

Lemma accumulate_from (texts : list string) (acc : string) :
  fold_left (fun full_text page => full_text ++ (page ++ nl ++ nl)) texts acc
  = acc ++ accumulate_pages texts.
Proof.
  unfold accumulate_pages. revert acc.
  induction texts as [|p ts IH]; intros acc; cbn [fold_left].
  - now rewrite TextFacts.append_nil_r.
  - rewrite IH, (IH ("" ++ (p ++ nl ++ nl))).
    now rewrite TextFacts.append_assoc.
Qed.

Lemma accumulate_cons (p : string) (ts : list string) :
  accumulate_pages (p :: ts) = p ++ (nl ++ nl) ++ accumulate_pages ts.
Proof.
  unfold accumulate_pages at 1. cbn [fold_left].
  rewrite accumulate_from. cbn [append].
  now rewrite TextFacts.append_assoc.
Qed.

(** The loop leaves the pages joined by two newlines, and two more
    newlines at the end. *)
Lemma accumulate_join (texts : list string) :
  texts <> [] ->
  accumulate_pages texts = join (nl ++ nl) texts ++ (nl ++ nl).
Proof.
  induction texts as [|p ts IH]; [contradiction|]. intros _.
  rewrite accumulate_cons. destruct ts as [|q ts].
  - reflexivity.
  - rewrite IH by discriminate. cbn [join].
    now rewrite !TextFacts.append_assoc.
Qed.

Lemma strip_accumulate (texts : list string) :
  strip (accumulate_pages texts) = strip (join (nl ++ nl) texts).
Proof.
  destruct texts as [|p ts]; [reflexivity|].
  rewrite accumulate_join by discriminate.
  now apply TextFacts.strip_app_space.
Qed.

(** C8, as the code has it.  When the PDF decodes into pages, the
    extraction returns the page texts in page order, two newlines (a blank
    line) between consecutive pages, with the whitespace at the two ends
    of the joined text removed and nothing else: the joined text is the
    result between a run of whitespace and a run of whitespace, and the
    result neither starts nor ends with whitespace.  When decoding raises,
    the extraction returns the empty text and shows the exception in an
    error box ([st.error]); it does not raise and shows no warning. *)
Theorem extract_text_from_pdf_pages
        (fitz_open : list Byte.byte -> PdfOutcome)
        (f : UploadedFile) (s : SessionState) :
  (forall texts, fitz_open (getvalue f) = Pages texts ->
     exists lead trail,
       extract_text_from_pdf fitz_open (Some f) s
       = (strip (join (nl ++ nl) texts), s, [ExtractCall (name f)]) /\
       join (nl ++ nl) texts = lead ++ strip (join (nl ++ nl) texts) ++ trail /\
       all is_space lead = true /\ all is_space trail = true /\
       starts_with is_space (strip (join (nl ++ nl) texts)) = false /\
       ends_with is_space (strip (join (nl ++ nl) texts)) = false)
  /\
  (forall e, fitz_open (getvalue f) = PdfRaises e ->
     extract_text_from_pdf fitz_open (Some f) s
     = ("", s, [ExtractCall (name f);
                Message Error ("Error extracting PDF text: " ++ e)])).
Proof.
  split.
  - intros texts H.
    destruct (TextFacts.strip_split (join (nl ++ nl) texts))
      as (lead & trail & Hj & Hl & Ht & Hs & He).
    exists lead, trail. repeat split; try assumption.
    unfold extract_text_from_pdf, bind, emit, ret. rewrite H.
    now rewrite strip_accumulate.
  - intros e H. unfold extract_text_from_pdf, bind, emit, ret, st_error, emit.
    now rewrite H.
Qed.

Lemma extract_text_from_pdf_pages_witness :
  sample_fitz (getvalue good_file)
  = Pages ["  Jane Doe" ++ nl ++ "Engineer" ++ nl; "Skills:  Rocq " ++ nl] /\
  extract_text_from_pdf sample_fitz (Some good_file) initial_state
  = ("Jane Doe" ++ nl ++ "Engineer" ++ nl ++ nl ++ nl ++ "Skills:  Rocq",
     initial_state, [ExtractCall "cv.pdf"]) /\
  sample_fitz (getvalue broken_file) = PdfRaises "cannot open empty document" /\
  extract_text_from_pdf sample_fitz (Some broken_file) initial_state
  = ("", initial_state,
     [ExtractCall "broken.pdf";
      Message Error "Error extracting PDF text: cannot open empty document"]).
Proof.
  split; [reflexivity|]. split.
  - destruct (proj1 (extract_text_from_pdf_pages sample_fitz good_file initial_state)
                    _ eq_refl) as (lead & trail & H & _).
    exact H.
  - split; [reflexivity|].
    exact (proj2 (extract_text_from_pdf_pages sample_fitz broken_file initial_state)
                 _ eq_refl).
Defined.

(** C8 as stated (the failure reported as a warning) fails: on a file
    PyMuPDF cannot open, the run shows no warning; the one message is at
    the error level. *)
Lemma extract_failure_is_not_a_warning :
  sample_fitz (getvalue broken_file) = PdfRaises "cannot open empty document" /\
  messages_at Warning
    (trace_of (extract_text_from_pdf sample_fitz (Some broken_file) initial_state)) = [] /\
  messages_at Error
    (trace_of (extract_text_from_pdf sample_fitz (Some broken_file) initial_state))
  = ["Error extracting PDF text: cannot open empty document"].
Proof. repeat split. Qed.

(** ** The upload handler *)

Ltac run_ui :=
  unfold bind, get, modify, emit, ret, st_info, st_success, st_warning,
         st_error, emit, result_of, state_of, trace_of in *;
  cbn [fst snd] in *.

Lemma is_new_file_differs (s : SessionState) (f : UploadedFile) :
  processed_file_name s <> Some (name f) -> is_new_file s f = true.
Proof.
  unfold is_new_file. destruct (processed_file_name s) as [p|]; [|reflexivity].
  intros H. destruct (String.eqb p (name f)) eqn:E.
  - apply String.eqb_eq in E. subst p. now contradiction H.
  - now rewrite orb_true_r.
Qed.

Lemma is_new_file_same (s : SessionState) (f : UploadedFile) :
  processed_file_name s = Some (name f) -> name f <> "" ->
  is_new_file s f = false.
Proof.
  unfold is_new_file. intros -> Hne. rewrite String.eqb_refl.
  destruct (name f); [contradiction | reflexivity].
Qed.

(** Extraction reads the file and shows messages; it writes no slot. *)
Lemma extract_keeps_state fitz_open (uploaded_file : option UploadedFile) (s : SessionState) :
  state_of (extract_text_from_pdf fitz_open uploaded_file s) = s.
Proof.
  unfold extract_text_from_pdf. destruct uploaded_file as [f|]; [|reflexivity].
  run_ui. now destruct (fitz_open (getvalue f)).
Qed.

(** The two ways out of the block that processes a new file. *)
Lemma process_new_file fitz_open (f : UploadedFile) (s : SessionState) :
  is_new_file s f = true ->
  state_of (process_upload fitz_open (Some f) s)
  = let text := result_of (extract_text_from_pdf fitz_open (Some f) s) in
    if truthy text
    then mkState (job_description s) text "" 0 [] true (Some (name f))
    else mkState (job_description s) (resume_text s) (analysis_result s)
                 (ats_score s) (chat_history s) false None.
Proof.
  intros Hnew. unfold process_upload.
  unfold bind at 1, get. rewrite Hnew.
  pose proof (extract_keeps_state fitz_open (Some f) s) as Hs.
  unfold bind at 1. unfold bind at 1.
  destruct (extract_text_from_pdf fitz_open (Some f) s) as [[text s1] t1].
  run_ui. subst s1. cbn zeta.
  destruct (truthy text); reflexivity.
Qed.

(** C3, as the code has it.  When the uploaded file is not the processed
    one and its extraction yields text, the handler stores that text,
    marks the file as processed and clears the previous analysis:
    [analysis_result] is empty, [ats_score] is 0 and [chat_history] is the
    empty list. *)
Theorem new_upload_clears_analysis
        (fitz_open : list Byte.byte -> PdfOutcome)
        (f : UploadedFile) (s : SessionState) :
  processed_file_name s <> Some (name f) ->
  truthy (result_of (extract_text_from_pdf fitz_open (Some f) s)) = true ->
  state_of (process_upload fitz_open (Some f) s)
  = mkState (job_description s)
            (result_of (extract_text_from_pdf fitz_open (Some f) s))
            "" 0 [] true (Some (name f)).
Proof.
  intros Hdiff Htext.
  rewrite process_new_file by now apply is_new_file_differs.
  cbv zeta. now rewrite Htext.
Qed.

Lemma new_upload_clears_analysis_witness :
  processed_file_name analysed_state <> Some (name good_file) /\
  truthy (result_of (extract_text_from_pdf sample_fitz (Some good_file) analysed_state)) = true /\
  state_of (process_upload sample_fitz (Some good_file) analysed_state)
  = mkState "Rocq engineer wanted"
            ("Jane Doe" ++ nl ++ "Engineer" ++ nl ++ nl ++ nl ++ "Skills:  Rocq")
            "" 0 [] true (Some "cv.pdf").
Proof.
  split; [discriminate|]. split; [reflexivity|].
  apply (new_upload_clears_analysis sample_fitz good_file analysed_state);
    solve [discriminate | reflexivity].
Defined.

(** C3 as stated fails: a file with a new name that PyMuPDF cannot open
    leaves the analysis, the score and the chat of the previous file in
    place. *)
Lemma failed_upload_keeps_analysis :
  processed_file_name analysed_state = Some "old.pdf" /\
  name broken_file = "broken.pdf" /\
  analysis_result (state_of (process_upload sample_fitz (Some broken_file) analysed_state))
  = "**ATS Score Explanation:** good" /\
  ats_score (state_of (process_upload sample_fitz (Some broken_file) analysed_state))
  = 75%Z /\
  chat_history (state_of (process_upload sample_fitz (Some broken_file) analysed_state))
  = twelve_messages.
Proof. repeat split. Qed.

(** C7.  When the name of the uploaded file is the name of the processed
    file, the handler does not call the extraction and changes no slot of
    the session state; it only shows the name of the current resume. *)
Theorem same_name_upload_is_skipped
        (fitz_open : list Byte.byte -> PdfOutcome)
        (f : UploadedFile) (s : SessionState) :
  name f <> "" ->
  processed_file_name s = Some (name f) ->
  process_upload fitz_open (Some f) s
  = (tt, s, [Message Info ("Current resume: '" ++ name f ++ "'")])
  /\ no_extraction (trace_of (process_upload fitz_open (Some f) s)).
Proof.
  intros Hne Hsame.
  assert (E : process_upload fitz_open (Some f) s
              = (tt, s, [Message Info ("Current resume: '" ++ name f ++ "'")])).
  { unfold process_upload. unfold bind at 1, get.
    rewrite (is_new_file_same s f Hsame Hne). reflexivity. }
  split; [exact E|]. now rewrite E.
Qed.

Lemma same_name_upload_is_skipped_witness :
  name (mkFile "old.pdf" [Byte.x25]) <> "" /\
  processed_file_name analysed_state = Some (name (mkFile "old.pdf" [Byte.x25])) /\
  process_upload sample_fitz (Some (mkFile "old.pdf" [Byte.x25])) analysed_state
  = (tt, analysed_state, [Message Info "Current resume: 'old.pdf'"]).
Proof.
  split; [discriminate|]. split; [reflexivity|].
  apply (same_name_upload_is_skipped sample_fitz (mkFile "old.pdf" [Byte.x25])
                                     analysed_state);
    solve [discriminate | reflexivity].
Defined.

(** C9.  When the uploaded file is not the processed one and its
    extraction yields the empty text, [resume_text], [analysis_result],
    [ats_score] and [chat_history] keep their values, [pdf_processed]
    becomes [False] and [processed_file_name] becomes [None].  The
    analysis is cleared only by an extraction that yields text: whenever
    the handler changes [analysis_result], [ats_score] or [chat_history],
    the extracted text was not empty. *)
Theorem failed_extraction_keeps_analysis
        (fitz_open : list Byte.byte -> PdfOutcome)
        (f : UploadedFile) (s : SessionState) :
  processed_file_name s <> Some (name f) ->
  (result_of (extract_text_from_pdf fitz_open (Some f) s) = "" ->
   state_of (process_upload fitz_open (Some f) s)
   = mkState (job_description s) (resume_text s) (analysis_result s)
             (ats_score s) (chat_history s) false None)
  /\
  ((analysis_result (state_of (process_upload fitz_open (Some f) s)) <> analysis_result s \/
    ats_score (state_of (process_upload fitz_open (Some f) s)) <> ats_score s \/
    chat_history (state_of (process_upload fitz_open (Some f) s)) <> chat_history s) ->
   result_of (extract_text_from_pdf fitz_open (Some f) s) <> "").
Proof.
  intros Hdiff.
  assert (Hfail : result_of (extract_text_from_pdf fitz_open (Some f) s) = "" ->
                  state_of (process_upload fitz_open (Some f) s)
                  = mkState (job_description s) (resume_text s) (analysis_result s)
                            (ats_score s) (chat_history s) false None).
  { intros Hempty. rewrite process_new_file by now apply is_new_file_differs.
    cbv zeta. now rewrite Hempty. }
  split; [exact Hfail|].
  intros Hchanged Hempty. rewrite (Hfail Hempty) in Hchanged.
  cbn in Hchanged. destruct Hchanged as [H|[H|H]]; now apply H.
Qed.

Lemma failed_extraction_keeps_analysis_witness :
  processed_file_name analysed_state <> Some (name blank_file) /\
  result_of (extract_text_from_pdf sample_fitz (Some blank_file) analysed_state) = "" /\
  state_of (process_upload sample_fitz (Some blank_file) analysed_state)
  = mkState "Rocq engineer wanted" "Jane Doe, engineer"
            "**ATS Score Explanation:** good" 75 twelve_messages false None.
Proof.
  split; [discriminate|]. split; [reflexivity|].
  apply (proj1 (failed_extraction_keeps_analysis sample_fitz blank_file analysed_state
                  ltac:(discriminate))).
  reflexivity.
Defined.

(** ** The analysis buttons *)

(** A call to the model writes no slot of the session state. *)
Lemma call_gemini_api_run API_KEY generate_content (prompt : string) (s : SessionState) :
  call_gemini_api API_KEY generate_content prompt s
  = (result_of (call_gemini_api API_KEY generate_content prompt s), s,
     trace_of (call_gemini_api API_KEY generate_content prompt s)).
Proof.
  unfold call_gemini_api. destruct (truthy_opt API_KEY); [|reflexivity].
  cbn [negb]. run_ui.
  destruct (generate_content prompt) as [text|reason| |e|e]; try reflexivity;
    now destruct (contains "API key not valid" e).
Qed.

Lemma parse_ats_score_run (response_text : option string) (s : SessionState) :
  parse_ats_score response_text s
  = (result_of (parse_ats_score response_text s), s,
     trace_of (parse_ats_score response_text s)).
Proof.
  unfold parse_ats_score. destruct response_text as [text|]; [|reflexivity].
  now destruct (Re.re_match Re.score_pattern text).
Qed.

(** What a button whose fields are filled in leaves in the session state. *)
Lemma press_ready API_KEY generate_content (b : Button) (s : SessionState) :
  ready b s = true ->
  state_of (press API_KEY generate_content b s)
  = match result_of (call_gemini_api API_KEY generate_content (prompt_of b s) s) with
    | Some r =>
        match b with
        | MatchBtn =>
            let parsed := result_of (parse_ats_score (Some r) s) in
            set_analysis_result ("**ATS Score Explanation:**" ++ nl ++ nl ++ snd parsed)
                                (set_ats_score (fst parsed) s)
        | _ => set_ats_score 0 (set_analysis_result r s)
        end
    | None => s
    end.
Proof.
  intros Hready.
  destruct b; cbn [ready prompt_of] in *;
    unfold press, summary_btn, improve_btn, keywords_btn, match_btn;
    unfold bind at 1, get; rewrite Hready;
    unfold bind at 1; rewrite call_gemini_api_run;
    destruct (result_of (call_gemini_api _ _ _ s)) as [r|]; try reflexivity.
  unfold bind at 1. rewrite parse_ats_score_run. reflexivity.
Qed.

(** What a button with a missing field does: one warning, nothing else. *)
Lemma press_not_ready API_KEY generate_content (b : Button) (s : SessionState) :
  ready b s = false ->
  exists text, press API_KEY generate_content b s = (tt, s, [Message Warning text]).
Proof.
  intros Hready.
  destruct b; cbn [ready] in *;
    unfold press, summary_btn, improve_btn, keywords_btn, match_btn;
    unfold bind at 1, get; rewrite Hready;
    try destruct (negb (truthy (job_description s)));
    eexists; reflexivity.
Qed.

(** A chat turn on a processed resume, run to its end: the question is
    appended, the model is called once on the state that holds the
    question, and an answer is appended: the reply when it is a non-empty
    text, the fixed apology otherwise. *)
Lemma chat_turn_run API_KEY generate_content (prompt : string) (s : SessionState) :
  truthy (resume_text s) = true ->
  let asked := set_chat_history (chat_history s ++ [mkMsg "user" prompt]) s in
  let sent := chat_prompt (job_description s) (resume_text s)
                          (history_context (chat_history s ++ [mkMsg "user" prompt]))
                          prompt in
  let answer :=
    match result_of (call_gemini_api API_KEY generate_content sent asked) with
    | Some r => if truthy r then r else chat_error
    | None => chat_error
    end in
  chat_turn API_KEY generate_content prompt s
  = (tt,
     set_chat_history
       (chat_history s ++ [mkMsg "user" prompt; mkMsg "assistant" answer]) s,
     (ChatBubble "user" prompt
        :: trace_of (call_gemini_api API_KEY generate_content sent asked)
        ++ [ChatBubble "assistant" answer])%list).
Proof.
  intros Hresume. cbv zeta.
  unfold chat_turn, append_chat, bind, get, modify, emit.
  rewrite Hresume. cbn [negb].
  cbn [job_description resume_text chat_history set_chat_history].
  rewrite call_gemini_api_run.
  match goal with
  | |- context [result_of (call_gemini_api ?k ?g ?p ?s0)] =>
      set (res := result_of (call_gemini_api k g p s0));
      set (tr := trace_of (call_gemini_api k g p s0))
  end.
  clearbody res tr.
  unfold result_of, trace_of, set_chat_history. cbn [fst snd].
  destruct res as [r|]; cbn [truthy_opt]; [destruct (truthy r)|];
    cbn [chat_history job_description resume_text analysis_result ats_score
         pdf_processed processed_file_name app];
    rewrite <- ?app_assoc; cbn [app]; rewrite ?app_nil_r; reflexivity.
Qed.

(** The chat writes [chat_history] only. *)
Lemma chat_turn_frame API_KEY generate_content (prompt : string) (s : SessionState) :
  exists history,
    state_of (chat_turn API_KEY generate_content prompt s)
    = set_chat_history history s.
Proof.
  destruct (truthy (resume_text s)) eqn:Hresume.
  - rewrite chat_turn_run by exact Hresume. eexists; reflexivity.
  - unfold chat_turn. unfold bind at 1, get. rewrite Hresume.
    exists (chat_history s). now destruct s.
Qed.

(** C5, as the code has it.  A button whose call to the model returns a
    text writes [analysis_result] and [ats_score] together: Summary,
    Improvements and Missing Keywords store the text and the score 0,
    % Match stores the parsed score and the explanation under its
    heading.  A button whose call returns nothing, or whose fields are
    missing, writes neither.  A chat turn writes neither: the score is not
    reset. *)
Theorem analysis_and_score_move_together
        (API_KEY : option string) (generate_content : string -> ApiResponse)
        (s : SessionState) :
  (forall b, ready b s = true ->
     match result_of (call_gemini_api API_KEY generate_content (prompt_of b s) s) with
     | Some r =>
         match b with
         | MatchBtn =>
             ats_score (state_of (press API_KEY generate_content b s))
             = fst (result_of (parse_ats_score (Some r) s)) /\
             analysis_result (state_of (press API_KEY generate_content b s))
             = "**ATS Score Explanation:**" ++ nl ++ nl
               ++ snd (result_of (parse_ats_score (Some r) s))
         | _ =>
             analysis_result (state_of (press API_KEY generate_content b s)) = r /\
             ats_score (state_of (press API_KEY generate_content b s)) = 0%Z
         end
     | None => state_of (press API_KEY generate_content b s) = s
     end)
  /\ (forall b, ready b s = false ->
        state_of (press API_KEY generate_content b s) = s)
  /\ (forall prompt,
        analysis_result (state_of (chat_turn API_KEY generate_content prompt s))
        = analysis_result s /\
        ats_score (state_of (chat_turn API_KEY generate_content prompt s))
        = ats_score s).
Proof.
  split; [|split].
  - intros b Hready. rewrite (press_ready _ _ _ _ Hready).
    destruct (result_of (call_gemini_api _ _ _ _)) as [r|]; [|reflexivity].
    destruct b; split; reflexivity.
  - intros b Hready.
    destruct (press_not_ready API_KEY generate_content b s Hready) as [text ->].
    reflexivity.
  - intros prompt.
    destruct (chat_turn_frame API_KEY generate_content prompt s) as [history ->].
    split; reflexivity.
Qed.

Lemma analysis_and_score_move_together_witness :
  ready MatchBtn analysed_state = true /\
  ats_score (state_of (press sample_key (constant_api ("Score: 88" ++ nl ++ "Strong"))
                             MatchBtn analysed_state)) = 88%Z /\
  analysis_result (state_of (press sample_key (constant_api ("Score: 88" ++ nl ++ "Strong"))
                                   MatchBtn analysed_state))
  = "**ATS Score Explanation:**" ++ nl ++ nl ++ "Strong".
Proof.
  split; [reflexivity|].
  exact (proj1 (analysis_and_score_move_together
                  sample_key (constant_api ("Score: 88" ++ nl ++ "Strong"))
                  analysed_state) MatchBtn eq_refl).
Defined.

(** C5 as stated (a completed chat turn resets the score) fails: the
    model answers, the answer is appended to the chat, and the score of the
    earlier analysis is still 75. *)
Lemma chat_turn_keeps_score :
  ats_score analysed_state = 75%Z /\
  chat_history (state_of (chat_turn sample_key (constant_api "Sure.") "What next?"
                                    analysed_state))
  = (twelve_messages ++ [mkMsg "user" "What next?"; mkMsg "assistant" "Sure."])%list /\
  ats_score (state_of (chat_turn sample_key (constant_api "Sure.") "What next?"
                                 analysed_state)) = 75%Z /\
  ats_score (state_of (chat_turn sample_key (constant_api "Sure.") "What next?"
                                 analysed_state)) <> 0%Z.
Proof. repeat (split; [reflexivity|]). discriminate. Qed.

(** C6.  With an empty job description, Missing Keywords and % Match send
    nothing to the model, show the warning "Please enter the Job
    Description first." and leave the whole session state, so
    [analysis_result] and [ats_score], as it was. *)
Theorem empty_job_description_refused
        (API_KEY : option string) (generate_content : string -> ApiResponse)
        (b : Button) (s : SessionState) :
  job_description s = "" ->
  b = KeywordsBtn \/ b = MatchBtn ->
  press API_KEY generate_content b s
  = (tt, s, [Message Warning "Please enter the Job Description first."])
  /\ no_api_call (trace_of (press API_KEY generate_content b s))
  /\ analysis_result (state_of (press API_KEY generate_content b s)) = analysis_result s
  /\ ats_score (state_of (press API_KEY generate_content b s)) = ats_score s.
Proof.
  intros Hjd Hb.
  assert (E : press API_KEY generate_content b s
              = (tt, s, [Message Warning "Please enter the Job Description first."])).
  { destruct Hb as [-> | ->]; unfold press, keywords_btn, match_btn;
      unfold bind at 1, get; rewrite Hjd; cbn [truthy negb];
      rewrite andb_false_r; reflexivity. }
  rewrite E. repeat split.
Qed.

Lemma empty_job_description_refused_witness :
  job_description (set_job_description "" analysed_state) = "" /\
  press sample_key (constant_api "Score: 88") MatchBtn
        (set_job_description "" analysed_state)
  = (tt, set_job_description "" analysed_state,
     [Message Warning "Please enter the Job Description first."]).
Proof.
  split; [reflexivity|].
  exact (proj1 (empty_job_description_refused
                  sample_key (constant_api "Score: 88") MatchBtn
                  (set_job_description "" analysed_state) eq_refl (or_intror eq_refl))).
Defined.

(** ** The chat *)

Lemma prompts_sent_app (t1 t2 : list Event) :
  prompts_sent (t1 ++ t2) = (prompts_sent t1 ++ prompts_sent t2)%list.
Proof.
  induction t1 as [|e t1 IH]; [reflexivity|].
  destruct e; cbn [app prompts_sent]; now rewrite IH.
Qed.

(** With a key configured, a call sends its prompt, once. *)
Lemma call_gemini_api_sends API_KEY generate_content (prompt : string) (s : SessionState) :
  truthy_opt API_KEY = true ->
  prompts_sent (trace_of (call_gemini_api API_KEY generate_content prompt s)) = [prompt].
Proof.
  intros Hkey. unfold call_gemini_api. rewrite Hkey. cbn [negb]. run_ui.
  destruct (generate_content prompt) as [text|reason| |e|e]; try reflexivity;
    now destruct (contains "API key not valid" e).
Qed.

Lemma call_gemini_api_text API_KEY generate_content (prompt text : string) (s : SessionState) :
  truthy_opt API_KEY = true ->
  generate_content prompt = RespText text ->
  call_gemini_api API_KEY generate_content prompt s = (Some text, s, [ApiCall prompt]).
Proof.
  intros Hkey Hresp. unfold call_gemini_api. rewrite Hkey. cbn [negb]. run_ui.
  now rewrite Hresp.
Qed.

Lemma last_n_snoc {A : Type} (n : nat) (l : list A) (x : A) :
  last_n (S n) (l ++ [x]) = (last_n n l ++ [x])%list.
Proof.
  unfold last_n. rewrite length_app. cbn [List.length].
  replace (List.length l + 1 - S n)%nat with (List.length l - n)%nat by lia.
  rewrite skipn_app.
  replace (List.length l - n - List.length l)%nat with 0%nat by lia.
  reflexivity.
Qed.

Lemma last_n_suffix {A : Type} (n : nat) (l : list A) :
  l = (firstn (List.length l - n) l ++ last_n n l)%list /\
  List.length (last_n n l) = Nat.min n (List.length l).
Proof.
  unfold last_n. split.
  - now rewrite firstn_skipn.
  - rewrite length_skipn. lia.
Qed.

(** C4, as the code has it.  On a processed resume and with a key
    configured, a chat turn sends one prompt to the model.  Its context
    block is made of the lines [role: content], joined by newlines, of the
    last five messages of the history to which the question has just been
    appended: the (at most) four most recent earlier messages, in order,
    and then the question itself as a [user] line; never more than five
    lines' worth of messages, whatever the length of the history.  After
    the twelve earlier messages of the sample, the block holds messages 9
    to 12 and the question. *)
Theorem chat_context_window
        (API_KEY : option string) (generate_content : string -> ApiResponse)
        (prompt : string) (s : SessionState) :
  truthy (resume_text s) = true ->
  truthy_opt API_KEY = true ->
  prompts_sent (trace_of (chat_turn API_KEY generate_content prompt s))
  = [chat_prompt (job_description s) (resume_text s)
                 (history_context (chat_history s ++ [mkMsg "user" prompt]))
                 prompt]
  /\ history_context (chat_history s ++ [mkMsg "user" prompt])
     = join nl (map render_message
                    (last_n 4 (chat_history s) ++ [mkMsg "user" prompt]))
  /\ chat_history s
     = (firstn (List.length (chat_history s) - 4) (chat_history s)
        ++ last_n 4 (chat_history s))%list
  /\ (List.length (last_n 4 (chat_history s) ++ [mkMsg "user" prompt]) <= 5)%nat
  /\ (chat_history s = twelve_messages ->
      history_context (chat_history s ++ [mkMsg "user" prompt])
      = "user: message 9" ++ nl ++ "assistant: message 10" ++ nl
        ++ "user: message 11" ++ nl ++ "assistant: message 12" ++ nl
        ++ "user: " ++ prompt).
Proof.
  intros Hresume Hkey. repeat split.
  - rewrite chat_turn_run by exact Hresume. cbv zeta. unfold trace_of at 1.
    cbn [snd]. change (ChatBubble "user" prompt :: ?t) with ([ChatBubble "user" prompt] ++ t)%list.
    rewrite !prompts_sent_app, call_gemini_api_sends by exact Hkey. reflexivity.
  - unfold history_context. now rewrite last_n_snoc.
  - apply last_n_suffix.
  - rewrite length_app. cbn [List.length].
    rewrite (proj2 (last_n_suffix 4 (chat_history s))). lia.
  - intros ->. reflexivity.
Qed.

Lemma chat_context_window_witness :
  truthy (resume_text analysed_state) = true /\
  truthy_opt sample_key = true /\
  prompts_sent (trace_of (chat_turn sample_key (constant_api "Sure.") "What next?"
                                    analysed_state))
  = [chat_prompt "Rocq engineer wanted" "Jane Doe, engineer"
                 ("user: message 9" ++ nl ++ "assistant: message 10" ++ nl
                  ++ "user: message 11" ++ nl ++ "assistant: message 12" ++ nl
                  ++ "user: What next?")
                 "What next?"].
Proof.
  split; [reflexivity|]. split; [reflexivity|].
  exact (proj1 (chat_context_window sample_key (constant_api "Sure.") "What next?"
                                    analysed_state eq_refl eq_refl)).
Defined.

(** C4 as stated (after twelve earlier messages the block holds the last
    five of them) fails: the block built by the handler starts at message
    9, the last five earlier messages start at message 8. *)
Lemma chat_context_is_not_five_prior :
  chat_history analysed_state = twelve_messages /\
  List.length twelve_messages = 12%nat /\
  join nl (map render_message (last_n 5 twelve_messages))
  = "assistant: message 8" ++ nl ++ "user: message 9" ++ nl
    ++ "assistant: message 10" ++ nl ++ "user: message 11" ++ nl
    ++ "assistant: message 12" /\
  prompts_sent (trace_of (chat_turn sample_key (constant_api "Sure.") "What next?"
                                    analysed_state))
  <> [chat_prompt (job_description analysed_state) (resume_text analysed_state)
                  (join nl (map render_message (last_n 5 twelve_messages)))
                  "What next?"].
Proof.
  repeat (split; [reflexivity|]). intros H. vm_compute in H. discriminate H.
Qed.

(** C10.  In the chat, a reply of the model whose text is empty counts as
    no reply: the call itself succeeds and returns the empty text, and the
    handler appends the question and then the fixed apology to
    [chat_history].  The four buttons store such a reply: the analysis
    becomes the empty text (under its heading for % Match) and the score
    0. *)
Theorem empty_reply_in_chat
        (API_KEY : option string) (generate_content : string -> ApiResponse)
        (prompt : string) (s : SessionState) :
  truthy (resume_text s) = true ->
  truthy_opt API_KEY = true ->
  (forall p, generate_content p = RespText "") ->
  (forall p s0, result_of (call_gemini_api API_KEY generate_content p s0) = Some "")
  /\ chat_history (state_of (chat_turn API_KEY generate_content prompt s))
     = (chat_history s
        ++ [mkMsg "user" prompt;
            mkMsg "assistant" "*Sorry, I encountered an error processing your request.*"])%list
  /\ (forall b, ready b s = true ->
        state_of (press API_KEY generate_content b s)
        = match b with
          | MatchBtn =>
              set_analysis_result ("**ATS Score Explanation:**" ++ nl ++ nl)
                                  (set_ats_score 0 s)
          | _ => set_ats_score 0 (set_analysis_result "" s)
          end).
Proof.
  intros Hresume Hkey Hempty.
  assert (Hcall : forall p s0,
             result_of (call_gemini_api API_KEY generate_content p s0) = Some "").
  { intros p s0. now rewrite (call_gemini_api_text _ _ p "" s0 Hkey (Hempty p)). }
  split; [exact Hcall|]. split.
  - rewrite chat_turn_run by exact Hresume. cbv zeta. now rewrite Hcall.
  - intros b Hready. rewrite press_ready by exact Hready. rewrite Hcall.
    now destruct b.
Qed.

Lemma empty_reply_in_chat_witness :
  truthy (resume_text analysed_state) = true /\
  truthy_opt sample_key = true /\
  (forall p, constant_api "" p = RespText "") /\
  chat_history (state_of (chat_turn sample_key (constant_api "") "What next?"
                                    analysed_state))
  = (twelve_messages
     ++ [mkMsg "user" "What next?";
         mkMsg "assistant" "*Sorry, I encountered an error processing your request.*"])%list.
Proof.
  split; [reflexivity|]. split; [reflexivity|]. split; [reflexivity|].
  exact (proj1 (proj2 (empty_reply_in_chat sample_key (constant_api "") "What next?"
                         analysed_state eq_refl eq_refl (fun _ => eq_refl)))).
Defined.

(** * Further properties of the code *)

(** ** Runs of composed computations *)

Lemma state_bind {A B : Type} (m : UI A) (f : A -> UI B) (s : SessionState) :
  state_of (bind m f s) = state_of (f (result_of (m s)) (state_of (m s))).
Proof.
  unfold bind, state_of, result_of.
  destruct (m s) as [[a s1] t1]. cbn [fst snd].
  now destruct (f a s1) as [[b s2] t2].
Qed.

Lemma trace_bind {A B : Type} (m : UI A) (f : A -> UI B) (s : SessionState) :
  trace_of (bind m f s)
  = (trace_of (m s) ++ trace_of (f (result_of (m s)) (state_of (m s))))%list.
Proof.
  unfold bind, state_of, result_of, trace_of.
  destruct (m s) as [[a s1] t1]. cbn [fst snd].
  now destruct (f a s1) as [[b s2] t2].
Qed.

(** ** More on the response interpreter *)

Lemma int_from_nonneg (ds : string) :
  forall acc, (0 <= acc)%Z -> all is_digit ds = true -> (0 <= int_from acc ds)%Z.
Proof.
  induction ds as [|d ds IH]; intros acc Hacc Hds; [exact Hacc|].
  cbn [all] in Hds. apply andb_true_iff in Hds as [Hd Hds].
  cbn [int_from]. apply IH; [|exact Hds].
  unfold is_digit in Hd. cbv zeta in Hd. unfold digit_value.
  apply andb_true_iff in Hd as [H1 _]. apply Nat.leb_le in H1. lia.
Qed.

(** X1.  Whatever the reply, the score [parse_ats_score] returns is a
    percentage: between 0 and 100. *)
Theorem parse_ats_score_in_range (response_text : option string) (s : SessionState) :
  (0 <= fst (result_of (parse_ats_score response_text s)) <= 100)%Z.
Proof.
  unfold parse_ats_score. destruct response_text as [text|]; [|cbn; lia].
  destruct (Re.re_match Re.score_pattern text) as [m|]; cbn; lia.
Qed.

(** X2.  [parse_ats_score] shows its warning exactly on the replies that
    have no leading score line; on the others it shows nothing. *)
Theorem parse_ats_score_warns_iff_no_score (text : string) (s : SessionState) :
  (trace_of (parse_ats_score (Some text) s) = [] <-> leading_score_line text)
  /\ (trace_of (parse_ats_score (Some text) s)
      = [Message Warning "Could not parse ATS score from the response."]
      <-> ~ leading_score_line text).
Proof.
  pose proof (ReFacts.match_score_iff text) as Hiff.
  unfold parse_ats_score.
  destruct (Re.re_match Re.score_pattern text) as [m|]; cbn; split; split;
    try discriminate; try reflexivity.
  - intros _. apply Hiff. now exists m.
  - intros Hno. exfalso. apply Hno, Hiff. now exists m.
  - intros H. apply Hiff in H. destruct H as [m H]. discriminate H.
  - intros _ H. apply Hiff in H. destruct H as [m H]. discriminate H.
Qed.

Lemma parse_ats_score_warns_iff_no_score_witness :
  leading_score_line ("Score:" ++ " " ++ "9" ++ "") /\
  trace_of (parse_ats_score (Some ("Score:" ++ " " ++ "9" ++ "")) initial_state) = [].
Proof.
  assert (Hline : leading_score_line ("Score:" ++ " " ++ "9" ++ "")).
  { exists " ", "9", "". repeat split. discriminate. }
  split; [exact Hline|].
  exact (proj2 (proj1 (parse_ats_score_warns_iff_no_score
                         ("Score:" ++ " " ++ "9" ++ "") initial_state)) Hline).
Defined.

(** X3.  When [int] returns N on the matched digits, N is not negative,
    so of the two clamps only the upper one acts: the score is the smaller
    of N and 100.  A leading zero changes nothing as long as [int] still
    returns on the longer run. *)
Theorem parse_ats_score_upper_clamp (ws ds rest : string) (n : Z) (s : SessionState) :
  all is_space ws = true ->
  all is_digit ds = true -> ds <> "" ->
  starts_with is_digit rest = false ->
  int_checked ds = Some n ->
  (0 <= n)%Z /\
  fst (result_of (parse_ats_score (Some ("Score:" ++ ws ++ ds ++ rest)) s))
  = Z.min 100 n /\
  (forall n0, int_checked ("0" ++ ds) = Some n0 ->
     n0 = n /\
     parse_ats_score (Some ("Score:" ++ ws ++ ("0" ++ ds) ++ rest)) s
     = parse_ats_score (Some ("Score:" ++ ws ++ ds ++ rest)) s).
Proof.
  intros Hws Hds Hne Hrest Hint. apply int_checked_Some in Hint as [-> _].
  assert (Hpos : (0 <= int ds)%Z) by (apply int_from_nonneg; [lia | exact Hds]).
  assert (Hrun : forall ds', all is_digit ds' = true -> ds' <> "" ->
            parse_ats_score (Some ("Score:" ++ ws ++ ds' ++ rest)) s
            = ((clamp (int ds'), strip rest), s, [])).
  { intros ds' Hds' Hne'. unfold parse_ats_score.
    rewrite (ReFacts.match_score_line ws ds' rest Hws Hds' Hne' Hrest).
    cbn [Re.group0 Re.group1 Re.groups nth].
    replace ("Score:" ++ ws ++ ds' ++ rest) with (("Score:" ++ ws ++ ds') ++ rest)
      by (cbn [append]; now rewrite TextFacts.append_assoc).
    now rewrite TextFacts.slice_from_app. }
  split; [exact Hpos|]. split.
  - rewrite (Hrun ds Hds Hne). cbn. unfold clamp. lia.
  - intros n0 Hzero. apply int_checked_Some in Hzero as [-> _]. split.
    + reflexivity.
    + rewrite (Hrun ds Hds Hne).
      rewrite (Hrun ("0" ++ ds)); [reflexivity | exact Hds | discriminate].
Qed.

Lemma parse_ats_score_upper_clamp_witness :
  all is_space " " = true /\ all is_digit "250" = true /\ "250" <> "" /\
  starts_with is_digit "%" = false /\
  int_checked "250" = Some 250%Z /\
  fst (result_of (parse_ats_score (Some ("Score:" ++ " " ++ "250" ++ "%")) initial_state))
  = Z.min 100 250.
Proof.
  split; [reflexivity|]. split; [reflexivity|]. split; [discriminate|].
  split; [reflexivity|]. split; [reflexivity|].
  apply (parse_ats_score_upper_clamp " " "250" "%" 250%Z initial_state);
    solve [reflexivity | discriminate].
Defined.

(** X4.  When the pattern matches, the match object cuts the text in two:
    the whole match, which is [Score:], a run of whitespace and the
    captured digits, and a rest that does not go on with a digit.  The
    captured group is a non-empty run of digits and the only group. *)
Theorem score_match_is_longest (text : string) (m : Re.MatchObject) :
  Re.re_match Re.score_pattern text = Some m ->
  exists ws rest,
    text = Re.group0 m ++ rest /\
    Re.group0 m = "Score:" ++ ws ++ Re.group1 m /\
    Re.groups m = [Re.group1 m] /\
    all is_space ws = true /\
    all is_digit (Re.group1 m) = true /\
    Re.group1 m <> "" /\
    starts_with is_space (Re.group1 m ++ rest) = false /\
    starts_with is_digit rest = false.
Proof.
  rewrite ReFacts.match_score_pattern.
  destruct (Re.eat "Score:" text) as [s1|] eqn:E; [|discriminate].
  cbv zeta.
  set (ws := take_while is_space s1). set (s2 := drop_while is_space s1).
  set (ds := take_while is_digit s2). set (s3 := drop_while is_digit s2).
  destruct (truthy ds) eqn:Hd; [|discriminate].
  intros H. inversion H. subst m. clear H.
  cbn [Re.group0 Re.group1 Re.groups nth].
  assert (E2 : s2 = ds ++ s3) by apply TextFacts.span_eq.
  exists ws, s3. repeat split.
  - rewrite (ReFacts.eat_Some _ _ _ E), (TextFacts.span_eq is_space s1).
    fold ws s2. rewrite E2. cbn [append].
    now rewrite !TextFacts.append_assoc.
  - apply TextFacts.all_take_while.
  - apply TextFacts.all_take_while.
  - intros Hempty. rewrite Hempty in Hd. discriminate Hd.
  - rewrite <- E2. apply TextFacts.starts_drop_while.
  - apply TextFacts.starts_drop_while.
Qed.

Lemma score_match_is_longest_witness :
  Re.re_match Re.score_pattern ("Score:" ++ nl ++ " 75abc")
  = Some (Re.mkMatch ("Score:" ++ nl ++ " 75") ["75"]) /\
  exists ws rest,
    "Score:" ++ nl ++ " 75abc" = ("Score:" ++ nl ++ " 75") ++ rest /\
    "Score:" ++ nl ++ " 75" = "Score:" ++ ws ++ "75".
Proof.
  split; [reflexivity|].
  destruct (score_match_is_longest ("Score:" ++ nl ++ " 75abc")
              (Re.mkMatch ("Score:" ++ nl ++ " 75") ["75"]) eq_refl)
    as (ws & rest & H1 & H2 & _).
  exists ws, rest. split; [exact H1 | exact H2].
Defined.

(** ** More on the call to the model *)

Lemma prefix_occurs (a b : string) :
  prefix a b = true <-> exists after, b = a ++ after.
Proof.
  revert b. induction a as [|x a IH]; intros b.
  - split; [intros _; now exists b | intros _; now destruct b].
  - destruct b as [|y b]; cbn [prefix append];
      [split; [discriminate | intros [after H]; discriminate H]|].
    destruct (ascii_dec x y) as [->|Hxy].
    + rewrite IH. split; intros [after H]; exists after.
      * now rewrite H.
      * now inversion H.
    + split; [discriminate|]. intros [after H]. inversion H. now contradiction Hxy.
Qed.

(** The model of [needle in s] finds exactly the occurrences. *)
Lemma contains_occurs (needle s : string) :
  contains needle s = true <-> occurs_in needle s.
Proof.
  unfold occurs_in. induction s as [|c s IH]; cbn [contains].
  - rewrite orb_false_r, prefix_occurs. split.
    + intros [after H]. exists "", after. exact H.
    + intros (before & after & H). destruct before as [|b before].
      * now exists after.
      * discriminate H.
  - rewrite orb_true_iff, prefix_occurs, IH. split.
    + intros [[after H] | (before & after & H)].
      * exists "", after. exact H.
      * exists (String c before), after. cbn [append]. now rewrite H.
    + intros (before & after & H). destruct before as [|b before].
      * left. now exists after.
      * right. cbn [append] in H. inversion H. now exists before, after.
Qed.

(** X5.  A call returns nothing in these cases only: no key is configured,
    or an exception is raised inside the [try], by [generate_content] or
    by the [text] accessor of the reply (as on the library's reply to a
    blocked prompt).  Without a key nothing is sent: the one event is the
    error "Gemini API Key not configured.". *)
Theorem call_gemini_api_none
        (API_KEY : option string) (generate_content : string -> ApiResponse)
        (prompt : string) (s : SessionState) :
  (result_of (call_gemini_api API_KEY generate_content prompt s) = None
   <-> truthy_opt API_KEY = false
       \/ (exists e, generate_content prompt = RespRaises e)
       \/ (exists e, generate_content prompt = RespTextRaises e))
  /\ (truthy_opt API_KEY = false ->
      call_gemini_api API_KEY generate_content prompt s
      = (None, s, [Message Error "Gemini API Key not configured."])).
Proof.
  unfold call_gemini_api. destruct (truthy_opt API_KEY); cbn [negb].
  - split; [|discriminate]. run_ui.
    destruct (generate_content prompt) as [text|reason| |e|e]; cbn [fst snd].
    + split; [discriminate | intros [H | [[e H] | [e H]]]; discriminate H].
    + split; [discriminate | intros [H | [[e H] | [e H]]]; discriminate H].
    + split; [discriminate | intros [H | [[e H] | [e H]]]; discriminate H].
    + destruct (contains "API key not valid" e); cbn [fst snd];
        (split; [intros _; right; left; now exists e | reflexivity]).
    + destruct (contains "API key not valid" e); cbn [fst snd];
        (split; [intros _; right; right; now exists e | reflexivity]).
  - split; [|reflexivity]. split; [now left | reflexivity].
Qed.

Lemma call_gemini_api_none_witness :
  truthy_opt (Some "") = false /\
  call_gemini_api (Some "") (constant_api "Sure.") "Hello" analysed_state
  = (None, analysed_state, [Message Error "Gemini API Key not configured."]).
Proof.
  split; [reflexivity|].
  exact (proj2 (call_gemini_api_none (Some "") (constant_api "Sure.") "Hello"
                  analysed_state) eq_refl).
Defined.

(** X6.  When the model raises, the call shows the exception after
    "Gemini API Error: ", and then the advice to check the key exactly when
    the exception text contains "API key not valid"; it returns nothing
    and writes no slot. *)
Theorem call_gemini_api_failure
        (API_KEY : option string) (generate_content : string -> ApiResponse)
        (prompt e : string) (s : SessionState) :
  truthy_opt API_KEY = true ->
  generate_content prompt = RespRaises e ->
  (occurs_in "API key not valid" e ->
   call_gemini_api API_KEY generate_content prompt s
   = (None, s,
      [ApiCall prompt; Message Error ("Gemini API Error: " ++ e);
       Message Error "Please check if your Gemini API Key is correct and valid."]))
  /\ (~ occurs_in "API key not valid" e ->
      call_gemini_api API_KEY generate_content prompt s
      = (None, s, [ApiCall prompt; Message Error ("Gemini API Error: " ++ e)])).
Proof.
  intros Hkey Hresp. pose proof (contains_occurs "API key not valid" e) as Hc.
  unfold call_gemini_api. rewrite Hkey. cbn [negb]. run_ui. rewrite Hresp.
  destruct (contains "API key not valid" e); split; intros H; try reflexivity.
  - exfalso. apply H, Hc. reflexivity.
  - apply Hc in H. discriminate H.
Qed.

Lemma call_gemini_api_failure_witness :
  truthy_opt sample_key = true /\
  (fun _ : string => RespRaises "400 API key not valid. Please pass a valid API key.") "Hello"
  = RespRaises "400 API key not valid. Please pass a valid API key." /\
  occurs_in "API key not valid" "400 API key not valid. Please pass a valid API key." /\
  call_gemini_api sample_key
    (fun _ => RespRaises "400 API key not valid. Please pass a valid API key.")
    "Hello" initial_state
  = (None, initial_state,
     [ApiCall "Hello";
      Message Error "Gemini API Error: 400 API key not valid. Please pass a valid API key.";
      Message Error "Please check if your Gemini API Key is correct and valid."]).
Proof.
  assert (Hocc : occurs_in "API key not valid"
                           "400 API key not valid. Please pass a valid API key.").
  { exists "400 ", ". Please pass a valid API key.". reflexivity. }
  split; [reflexivity|]. split; [reflexivity|]. split; [exact Hocc|].
  exact (proj1 (call_gemini_api_failure sample_key
                  (fun _ => RespRaises "400 API key not valid. Please pass a valid API key.")
                  "Hello" _ initial_state eq_refl eq_refl) Hocc).
Defined.

(** The [except] branch, whichever statement of the [try] raised. *)
Lemma call_gemini_api_except API_KEY generate_content (prompt e : string)
      (s : SessionState) :
  truthy_opt API_KEY = true ->
  generate_content prompt = RespRaises e \/ generate_content prompt = RespTextRaises e ->
  call_gemini_api API_KEY generate_content prompt s
  = (None, s,
     ApiCall prompt :: Message Error ("Gemini API Error: " ++ e)
       :: (if contains "API key not valid" e
           then [Message Error "Please check if your Gemini API Key is correct and valid."]
           else [])).
Proof.
  intros Hkey Hresp. unfold call_gemini_api. rewrite Hkey. cbn [negb]. run_ui.
  destruct Hresp as [-> | ->]; now destruct (contains "API key not valid" e).
Qed.

(** X7.  A reply whose [text] accessor raises, which is what the library
    returns for a blocked prompt, is handled as a failure and not as a
    blocked reply: the call shows "Gemini API Error: " and the exception in
    an error box, shows no warning, returns nothing, and a button whose
    fields are filled in leaves the whole session state, so the earlier
    analysis and score, as it was. *)
Theorem blocked_reply_is_a_failure
        (API_KEY : option string) (generate_content : string -> ApiResponse)
        (b : Button) (e : string) (s : SessionState) :
  truthy_opt API_KEY = true ->
  ready b s = true ->
  generate_content (prompt_of b s) = RespTextRaises e ->
  result_of (call_gemini_api API_KEY generate_content (prompt_of b s) s) = None /\
  state_of (press API_KEY generate_content b s) = s /\
  messages_at Warning (trace_of (press API_KEY generate_content b s)) = [] /\
  exists hint,
    trace_of (press API_KEY generate_content b s)
    = ApiCall (prompt_of b s) :: Message Error ("Gemini API Error: " ++ e) :: hint.
Proof.
  intros Hkey Hready Hresp.
  pose proof (call_gemini_api_except API_KEY generate_content (prompt_of b s) e s
                Hkey (or_intror Hresp)) as Hcall.
  assert (Hpress : press API_KEY generate_content b s
                   = (tt, s,
                      ApiCall (prompt_of b s) :: Message Error ("Gemini API Error: " ++ e)
                        :: (if contains "API key not valid" e
                            then [Message Error "Please check if your Gemini API Key is correct and valid."]
                            else []))).
  { destruct b; cbn [ready prompt_of] in *;
      unfold press, summary_btn, improve_btn, keywords_btn, match_btn;
      unfold bind at 1, get; rewrite Hready; unfold bind at 1; rewrite Hcall;
      cbn [store_plain_result ret]; now rewrite app_nil_r. }
  rewrite Hcall, Hpress. unfold result_of, state_of, trace_of. cbn [fst snd].
  repeat split.
  - now destruct (contains "API key not valid" e).
  - eexists. reflexivity.
Qed.

Lemma blocked_reply_is_a_failure_witness :
  truthy_opt sample_key = true /\
  ready MatchBtn analysed_state = true /\
  (exists e, blocking_api (prompt_of MatchBtn analysed_state) = RespTextRaises e) /\
  state_of (press sample_key blocking_api MatchBtn analysed_state) = analysed_state /\
  ats_score (state_of (press sample_key blocking_api MatchBtn analysed_state)) = 75%Z.
Proof.
  split; [reflexivity|]. split; [reflexivity|].
  split; [eexists; reflexivity|].
  pose proof (proj1 (proj2 (blocked_reply_is_a_failure sample_key blocking_api MatchBtn _
                              analysed_state eq_refl eq_refl eq_refl))) as H.
  split; [exact H|]. now rewrite H.
Defined.

(** ** More on the buttons *)

(** [parse_ats_score] on a text with a score line. *)
Lemma parse_ats_score_on_score_line (ws ds rest : string) (s : SessionState) :
  all is_space ws = true -> all is_digit ds = true -> ds <> "" ->
  starts_with is_digit rest = false ->
  parse_ats_score (Some ("Score:" ++ ws ++ ds ++ rest)) s
  = ((clamp (int ds), strip rest), s, []).
Proof.
  intros Hws Hds Hne Hrest. unfold parse_ats_score.
  rewrite (ReFacts.match_score_line ws ds rest Hws Hds Hne Hrest).
  cbn [Re.group0 Re.group1 Re.groups nth].
  replace ("Score:" ++ ws ++ ds ++ rest) with (("Score:" ++ ws ++ ds) ++ rest)
    by (cbn [append]; now rewrite TextFacts.append_assoc).
  now rewrite TextFacts.slice_from_app.
Qed.

Lemma prompts_sent_parse (response_text : option string) (s : SessionState) :
  prompts_sent (trace_of (parse_ats_score response_text s)) = [].
Proof.
  unfold parse_ats_score. destruct response_text as [text|]; [|reflexivity].
  now destruct (Re.re_match Re.score_pattern text).
Qed.

Lemma prompts_sent_call API_KEY generate_content (prompt : string) (s : SessionState) :
  prompts_sent (trace_of (call_gemini_api API_KEY generate_content prompt s))
  = if truthy_opt API_KEY then [prompt] else [].
Proof.
  destruct (truthy_opt API_KEY) eqn:Hkey.
  - now apply call_gemini_api_sends.
  - unfold call_gemini_api. now rewrite Hkey.
Qed.

(** The prompts a button sends. *)
Lemma prompts_sent_press API_KEY generate_content (b : Button) (s : SessionState) :
  prompts_sent (trace_of (press API_KEY generate_content b s))
  = (if ready b s && truthy_opt API_KEY then [prompt_of b s] else []).
Proof.
  destruct (ready b s) eqn:Hready; cbn [andb].
  - rewrite <- (prompts_sent_call API_KEY generate_content (prompt_of b s) s).
    destruct b; cbn [ready prompt_of] in *;
      unfold press, summary_btn, improve_btn, keywords_btn, match_btn;
      rewrite trace_bind; cbn [get trace_of result_of state_of fst snd app];
      rewrite Hready, trace_bind, prompts_sent_app;
      destruct (result_of (call_gemini_api _ _ _ s)) as [r|];
      rewrite ?trace_bind, ?prompts_sent_app, ?prompts_sent_parse;
      cbn; now rewrite ?app_nil_r.
  - destruct (press_not_ready API_KEY generate_content b s Hready) as [text ->].
    reflexivity.
Qed.

(** X8.  A button sends at most one prompt: its own, and only when its
    fields are filled in and a key is configured.  It writes no slot other
    than [analysis_result] and [ats_score]. *)
Theorem press_sends_and_keeps
        (API_KEY : option string) (generate_content : string -> ApiResponse)
        (b : Button) (s : SessionState) :
  prompts_sent (trace_of (press API_KEY generate_content b s))
  = (if ready b s && truthy_opt API_KEY then [prompt_of b s] else [])
  /\ exists analysis score,
       state_of (press API_KEY generate_content b s)
       = mkState (job_description s) (resume_text s) analysis score
                 (chat_history s) (pdf_processed s) (processed_file_name s).
Proof.
  split; [apply prompts_sent_press|].
  destruct (ready b s) eqn:Hready.
  - rewrite press_ready by exact Hready.
    destruct (result_of (call_gemini_api _ _ _ _)) as [r|].
    + destruct b;
        [exists r, 0%Z; reflexivity ..
        | exists ("**ATS Score Explanation:**" ++ nl ++ nl
                  ++ snd (result_of (parse_ats_score (Some r) s))),
                 (fst (result_of (parse_ats_score (Some r) s))); reflexivity].
    + exists (analysis_result s), (ats_score s). now destruct s.
  - destruct (press_not_ready API_KEY generate_content b s Hready) as [text ->].
    exists (analysis_result s), (ats_score s). now destruct s.
Qed.

(** X9.  % Match, end to end: when the model answers with a score line
    and [int] returns N on its digits (they are at most 4300), the button
    sends its prompt, shows nothing, stores N clamped to 0..100 as the
    score and the trimmed rest of the answer under the heading as the
    analysis. *)
Theorem match_btn_stores_score
        (API_KEY : option string) (generate_content : string -> ApiResponse)
        (ws ds rest : string) (n : Z) (s : SessionState) :
  truthy_opt API_KEY = true ->
  ready MatchBtn s = true ->
  generate_content (prompt_of MatchBtn s) = RespText ("Score:" ++ ws ++ ds ++ rest) ->
  all is_space ws = true -> all is_digit ds = true -> ds <> "" ->
  starts_with is_digit rest = false ->
  int_checked ds = Some n ->
  press API_KEY generate_content MatchBtn s
  = (tt,
     mkState (job_description s) (resume_text s)
             ("**ATS Score Explanation:**" ++ nl ++ nl ++ strip rest)
             (clamp n)
             (chat_history s) (pdf_processed s) (processed_file_name s),
     [ApiCall (prompt_of MatchBtn s)]).
Proof.
  intros Hkey Hready Hresp Hws Hds Hne Hrest Hint.
  apply int_checked_Some in Hint as [-> _].
  cbn [ready prompt_of] in *. unfold press, match_btn.
  unfold bind at 1, get. rewrite Hready. unfold bind at 1.
  rewrite (call_gemini_api_text _ _ _ _ s Hkey Hresp).
  unfold bind at 1.
  rewrite (parse_ats_score_on_score_line ws ds rest s Hws Hds Hne Hrest).
  reflexivity.
Qed.

Lemma match_btn_stores_score_witness :
  truthy_opt sample_key = true /\
  ready MatchBtn analysed_state = true /\
  all is_space " " = true /\ all is_digit "104" = true /\ "104" <> "" /\
  starts_with is_digit (nl ++ "Over-qualified." ++ nl) = false /\
  int_checked "104" = Some 104%Z /\
  state_of (press sample_key
                  (constant_api ("Score:" ++ " " ++ "104" ++ (nl ++ "Over-qualified." ++ nl)))
                  MatchBtn analysed_state)
  = mkState "Rocq engineer wanted" "Jane Doe, engineer"
            ("**ATS Score Explanation:**" ++ nl ++ nl ++ "Over-qualified.") 100
            twelve_messages true (Some "old.pdf").
Proof.
  split; [reflexivity|]. split; [reflexivity|]. split; [reflexivity|].
  split; [reflexivity|]. split; [discriminate|]. split; [reflexivity|].
  split; [reflexivity|].
  rewrite (match_btn_stores_score sample_key
             (constant_api ("Score:" ++ " " ++ "104" ++ (nl ++ "Over-qualified." ++ nl)))
             " " "104" (nl ++ "Over-qualified." ++ nl) 104%Z analysed_state);
    solve [reflexivity | discriminate].
Defined.

(** ** More on the chat *)

(** The prompts a chat turn sends. *)
Lemma prompts_sent_chat_turn API_KEY generate_content (prompt : string)
      (s : SessionState) :
  (List.length (prompts_sent (trace_of (chat_turn API_KEY generate_content prompt s)))
   <= 1)%nat.
Proof.
  destruct (truthy (resume_text s)) eqn:Hresume.
  - rewrite chat_turn_run by exact Hresume. cbv zeta.
    unfold trace_of at 1. cbn [snd].
    change (ChatBubble "user" prompt :: ?t)
      with ([ChatBubble "user" prompt] ++ t)%list.
    rewrite !prompts_sent_app, prompts_sent_call.
    destruct (truthy_opt API_KEY); cbn; lia.
  - unfold chat_turn. unfold bind at 1, get. rewrite Hresume. cbn. lia.
Qed.

(** X10.  Without a resume text the chat refuses the question: one
    warning, nothing sent, nothing written.  With one, the turn sends one
    prompt at most and writes [chat_history] only, which grows by exactly
    two messages, the question as [user] and then an [assistant] message
    that is never empty. *)
Theorem chat_turn_appends_a_pair
        (API_KEY : option string) (generate_content : string -> ApiResponse)
        (prompt : string) (s : SessionState) :
  (truthy (resume_text s) = false ->
   chat_turn API_KEY generate_content prompt s
   = (tt, s, [Message Warning "Please upload and process a resume before chatting."]))
  /\
  (truthy (resume_text s) = true ->
   (List.length (prompts_sent (trace_of (chat_turn API_KEY generate_content prompt s))) <= 1)%nat
   /\ exists answer,
        answer <> "" /\
        state_of (chat_turn API_KEY generate_content prompt s)
        = mkState (job_description s) (resume_text s) (analysis_result s) (ats_score s)
                  (chat_history s ++ [mkMsg "user" prompt; mkMsg "assistant" answer])
                  (pdf_processed s) (processed_file_name s)).
Proof.
  split; intros Hresume.
  - unfold chat_turn. unfold bind at 1, get. now rewrite Hresume.
  - rewrite chat_turn_run by exact Hresume. cbv zeta. split.
    + rewrite <- (chat_turn_run API_KEY generate_content prompt s Hresume).
      apply prompts_sent_chat_turn.
    + eexists. split; [|reflexivity].
      destruct (result_of (call_gemini_api _ _ _ _)) as [r|]; [|discriminate].
      destruct r; cbn [truthy]; discriminate.
Qed.

Lemma chat_turn_appends_a_pair_witness :
  truthy (resume_text initial_state) = false /\
  chat_turn sample_key (constant_api "Sure.") "What next?" initial_state
  = (tt, initial_state,
     [Message Warning "Please upload and process a resume before chatting."]) /\
  truthy (resume_text analysed_state) = true /\
  (List.length (prompts_sent (trace_of (chat_turn sample_key (constant_api "Sure.")
                                                  "What next?" analysed_state))) <= 1)%nat.
Proof.
  split; [reflexivity|]. split.
  - exact (proj1 (chat_turn_appends_a_pair sample_key (constant_api "Sure.")
                    "What next?" initial_state) eq_refl).
  - split; [reflexivity|].
    exact (proj1 (proj2 (chat_turn_appends_a_pair sample_key (constant_api "Sure.")
                           "What next?" analysed_state) eq_refl)).
Defined.

(** ** More on the upload handler *)


(** The handler on a new file, run to its end. *)
Lemma process_upload_new fitz_open (f : UploadedFile) (s : SessionState) :
  is_new_file s f = true ->
  process_upload fitz_open (Some f) s
  = let text := result_of (extract_text_from_pdf fitz_open (Some f) s) in
    let shown := trace_of (extract_text_from_pdf fitz_open (Some f) s) in
    if truthy text
    then (tt, mkState (job_description s) text "" 0 [] true (Some (name f)),
          (shown ++ [Message Success ("Successfully extracted text from '" ++ name f ++ "'");
                     Message Info ("Current resume: '" ++ name f ++ "'")])%list)
    else (tt, mkState (job_description s) (resume_text s) (analysis_result s)
                      (ats_score s) (chat_history s) false None,
          (shown ++ [Message Info ("Current resume: '" ++ name f ++ "'")])%list).
Proof.
  intros Hnew. unfold process_upload.
  unfold bind at 1, get. rewrite Hnew.
  pose proof (extract_keeps_state fitz_open (Some f) s) as Hs.
  unfold bind at 1. unfold bind at 1.
  destruct (extract_text_from_pdf fitz_open (Some f) s) as [[text s1] shown].
  run_ui. subst s1. cbv zeta.
  destruct (truthy text); cbn [app];
    rewrite ?app_nil_r, <- ?app_assoc; reflexivity.
Qed.

Lemma process_upload_old fitz_open (f : UploadedFile) (s : SessionState) :
  is_new_file s f = false ->
  process_upload fitz_open (Some f) s
  = (tt, s, [Message Info ("Current resume: '" ++ name f ++ "'")]).
Proof.
  intros Hold. unfold process_upload. unfold bind at 1, get. now rewrite Hold.
Qed.



Lemma all_space_accumulate (texts : list string) :
  forallb (all is_space) texts = true -> all is_space (accumulate_pages texts) = true.
Proof.
  induction texts as [|p ts IH]; [reflexivity|]. cbn [forallb]. intros H.
  apply andb_true_iff in H as [Hp Hts].
  rewrite accumulate_cons, !TextFacts.all_app, Hp, (IH Hts). reflexivity.
Qed.

Lemma strip_all_space (s : string) : all is_space s = true -> strip s = "".
Proof.
  unfold strip, lstrip. intros H.
  replace (drop_while is_space s) with ""; [reflexivity|].
  induction s as [|c s IH]; [reflexivity|].
  cbn [all] in H. apply andb_true_iff in H as [Hc Hs].
  cbn [drop_while]. rewrite Hc. now apply IH.
Qed.

(** X12.  A PDF that opens but whose pages hold nothing but whitespace
    (a scan without a text layer) is handled as a failed extraction, and
    silently: no error, warning or success message is shown, only the name
    of the current resume; the resume is marked as not processed and the
    earlier resume text and analysis stay. *)
Theorem textless_pdf_fails_silently
        (fitz_open : list Byte.byte -> PdfOutcome)
        (f : UploadedFile) (texts : list string) (s : SessionState) :
  processed_file_name s <> Some (name f) ->
  fitz_open (getvalue f) = Pages texts ->
  forallb (all is_space) texts = true ->
  process_upload fitz_open (Some f) s
  = (tt,
     mkState (job_description s) (resume_text s) (analysis_result s)
             (ats_score s) (chat_history s) false None,
     [ExtractCall (name f); Message Info ("Current resume: '" ++ name f ++ "'")]).
Proof.
  intros Hdiff Hpages Hblank. apply is_new_file_differs in Hdiff.
  rewrite (process_upload_new fitz_open f s Hdiff). cbv zeta.
  unfold extract_text_from_pdf. run_ui. rewrite Hpages. cbn [fst snd].
  rewrite (strip_all_space _ (all_space_accumulate texts Hblank)). reflexivity.
Qed.

Lemma textless_pdf_fails_silently_witness :
  processed_file_name analysed_state <> Some (name blank_file) /\
  sample_fitz (getvalue blank_file) = Pages [" " ++ nl; nl] /\
  forallb (all is_space) [" " ++ nl; nl] = true /\
  process_upload sample_fitz (Some blank_file) analysed_state
  = (tt,
     mkState "Rocq engineer wanted" "Jane Doe, engineer"
             "**ATS Score Explanation:** good" 75 twelve_messages false None,
     [ExtractCall "blank.pdf"; Message Info "Current resume: 'blank.pdf'"]).
Proof.
  split; [discriminate|]. split; [reflexivity|]. split; [reflexivity|].
  exact (textless_pdf_fails_silently sample_fitz blank_file [" " ++ nl; nl]
           analysed_state ltac:(discriminate) eq_refl eq_refl).
Defined.

(** ** Runs of the whole script *)

Lemma show_history_state (history : list ChatMessage) (s : SessionState) :
  state_of (show_history history s) = s.
Proof.
  induction history as [|msg rest IH]; [reflexivity|].
  cbn [show_history]. rewrite state_bind. exact IH.
Qed.

Lemma prompts_sent_show_history (history : list ChatMessage) (s : SessionState) :
  prompts_sent (trace_of (show_history history s)) = [].
Proof.
  induction history as [|msg rest IH]; [reflexivity|].
  cbn [show_history]. rewrite trace_bind, prompts_sent_app.
  cbn [emit trace_of state_of result_of fst snd]. exact IH.
Qed.

(** The session state a run of the script ends in: the job description is
    read, the upload processed and, when a resume is processed, the pressed
    button and the submitted question handled, in this order. *)
Lemma script_state API_KEY fitz_open generate_content (i : Inputs) (s : SessionState) :
  state_of (script API_KEY fitz_open generate_content i s)
  = let s1 := state_of (process_upload fitz_open (pdf_uploader i)
                                       (set_job_description (jd_input i) s)) in
    if pdf_processed s1 then
      let s2 := match clicked i with
                | Some b => state_of (press API_KEY generate_content b s1)
                | None => s1
                end in
      match chat_input i with
      | Some prompt =>
          if truthy prompt
          then state_of (chat_turn API_KEY generate_content prompt s2)
          else s2
      | None => s2
      end
    else s1.
Proof.
  unfold script. rewrite state_bind. cbn [modify state_of result_of fst snd].
  rewrite state_bind.
  set (s1 := state_of (process_upload fitz_open (pdf_uploader i)
                                      (set_job_description (jd_input i) s))).
  rewrite state_bind. cbn [get state_of result_of fst snd]. cbv zeta.
  destruct (pdf_processed s1); [|reflexivity].
  rewrite state_bind.
  set (s2 := state_of (match clicked i with
                       | Some b => press API_KEY generate_content b
                       | None => ret tt
                       end s1)).
  replace (match clicked i with
           | Some b => state_of (press API_KEY generate_content b s1)
           | None => s1
           end) with s2 by (subst s2; now destruct (clicked i)).
  rewrite state_bind. cbn [get state_of result_of fst snd].
  rewrite state_bind, show_history_state.
  destruct (chat_input i) as [prompt|]; [|reflexivity].
  now destruct (truthy prompt).
Qed.

(** What the upload handler can leave behind. *)
Lemma process_upload_cases fitz_open (uploaded_file : option UploadedFile)
      (s : SessionState) :
  state_of (process_upload fitz_open uploaded_file s) = s
  \/ (exists f text,
        uploaded_file = Some f /\ truthy text = true /\
        starts_with is_space text = false /\ ends_with is_space text = false /\
        state_of (process_upload fitz_open uploaded_file s)
        = mkState (job_description s) text "" 0 [] true (Some (name f)))
  \/ state_of (process_upload fitz_open uploaded_file s)
     = mkState (job_description s) (resume_text s) (analysis_result s)
               (ats_score s) (chat_history s) false None.
Proof.
  destruct uploaded_file as [f|]; [|now left].
  destruct (is_new_file s f) eqn:Hnew.
  - rewrite (process_upload_new fitz_open f s Hnew). cbv zeta.
    destruct (truthy (result_of (extract_text_from_pdf fitz_open (Some f) s))) eqn:Ht.
    + right. left. exists f, (result_of (extract_text_from_pdf fitz_open (Some f) s)).
      repeat split; try assumption.
      * unfold extract_text_from_pdf. run_ui.
        destruct (fitz_open (getvalue f)) as [texts|e]; [|reflexivity]. cbn [fst snd].
        destruct (TextFacts.strip_split (accumulate_pages texts))
          as (lead & trail & _ & _ & _ & H & _). exact H.
      * unfold extract_text_from_pdf. run_ui.
        destruct (fitz_open (getvalue f)) as [texts|e]; [|reflexivity]. cbn [fst snd].
        destruct (TextFacts.strip_split (accumulate_pages texts))
          as (lead & trail & _ & _ & _ & _ & H). exact H.
    + right. right. reflexivity.
  - left. now rewrite (process_upload_old fitz_open f s Hnew).
Qed.

(** What a button can leave behind. *)
Lemma press_cases API_KEY generate_content (b : Button) (s : SessionState) :
  state_of (press API_KEY generate_content b s) = s
  \/ exists analysis score,
       (0 <= score <= 100)%Z /\
       state_of (press API_KEY generate_content b s)
       = mkState (job_description s) (resume_text s) analysis score
                 (chat_history s) (pdf_processed s) (processed_file_name s).
Proof.
  destruct (ready b s) eqn:Hready.
  - rewrite press_ready by exact Hready.
    destruct (result_of (call_gemini_api _ _ _ _)) as [r|]; [|now left].
    right. destruct b;
      [exists r, 0%Z; split; [lia | reflexivity] ..
      | exists ("**ATS Score Explanation:**" ++ nl ++ nl
                ++ snd (result_of (parse_ats_score (Some r) s))),
               (fst (result_of (parse_ats_score (Some r) s)));
        split; [|reflexivity]].
    unfold parse_ats_score.
    destruct (Re.re_match Re.score_pattern r) as [m|]; cbn; lia.
  - destruct (press_not_ready API_KEY generate_content b s Hready) as [text ->].
    now left.
Qed.

(** What a submitted question can leave behind. *)
Lemma chat_turn_cases API_KEY generate_content (prompt : string) (s : SessionState) :
  state_of (chat_turn API_KEY generate_content prompt s) = s
  \/ exists answer,
       answer <> "" /\
       state_of (chat_turn API_KEY generate_content prompt s)
       = mkState (job_description s) (resume_text s) (analysis_result s) (ats_score s)
                 (chat_history s ++ [mkMsg "user" prompt; mkMsg "assistant" answer])
                 (pdf_processed s) (processed_file_name s).
Proof.
  destruct (truthy (resume_text s)) eqn:Hresume.
  - right. rewrite chat_turn_run by exact Hresume. cbv zeta.
    eexists. split; [|reflexivity].
    destruct (result_of (call_gemini_api _ _ _ _)) as [r|]; [|discriminate].
    destruct r; cbn [truthy]; discriminate.
  - left. unfold chat_turn. unfold bind at 1, get. now rewrite Hresume.
Qed.

Ltac upload_cases fitz_open uploaded_file s :=
  destruct (process_upload_cases fitz_open uploaded_file s)
    as [-> | [(?f & ?text & _ & ?Htruthy & ?Hstart & ?Hend & ->) | ->]].

Ltac press_cases_in K g b s :=
  destruct (press_cases K g b s) as [-> | (?analysis & ?score & ?Hscore & ->)].

Ltac chat_cases_in K g q s :=
  destruct (chat_turn_cases K g q s) as [-> | (?answer & ?Hanswer & ->)].

(** X13.  With no file in the uploader the script extracts nothing and
    keeps the resume it has: [resume_text], [pdf_processed] and
    [processed_file_name] are not written, so a resume processed earlier
    stays usable after its file is removed from the widget.  If no resume
    is processed, the run only stores the job description and asks for a
    PDF, whatever button or question comes with it. *)
Theorem script_without_upload
        (API_KEY : option string) (fitz_open : list Byte.byte -> PdfOutcome)
        (generate_content : string -> ApiResponse)
        (i : Inputs) (s : SessionState) :
  pdf_uploader i = None ->
  (pdf_processed s = false ->
   script API_KEY fitz_open generate_content i s
   = (tt, set_job_description (jd_input i) s,
      [Message Info "Upload a PDF resume to get started."]))
  /\ resume_text (state_of (script API_KEY fitz_open generate_content i s))
     = resume_text s
  /\ pdf_processed (state_of (script API_KEY fitz_open generate_content i s))
     = pdf_processed s
  /\ processed_file_name (state_of (script API_KEY fitz_open generate_content i s))
     = processed_file_name s.
Proof.
  intros Hnone. split.
  - intros Hproc. unfold script. rewrite Hnone. cbn [process_upload].
    unfold bind, modify, ret, get. cbn [pdf_processed set_job_description].
    rewrite Hproc. reflexivity.
  - rewrite script_state, Hnone. cbn [process_upload ret state_of fst snd]. cbv zeta.
    destruct (pdf_processed (set_job_description (jd_input i) s)) eqn:Hp;
      [|repeat split].
    destruct (clicked i) as [b|];
      [press_cases_in API_KEY generate_content b (set_job_description (jd_input i) s)|];
      (destruct (chat_input i) as [q|]; [destruct (truthy q)|]);
      try match goal with
          | |- context [chat_turn ?k ?g ?q ?s0] => chat_cases_in k g q s0
          end;
      repeat split.
Qed.

Lemma script_without_upload_witness :
  pdf_uploader (mkInputs "Rocq engineer wanted" None (Some MatchBtn) (Some "Hi")) = None /\
  pdf_processed initial_state = false /\
  script sample_key sample_fitz (constant_api "Sure.")
         (mkInputs "Rocq engineer wanted" None (Some MatchBtn) (Some "Hi")) initial_state
  = (tt, set_job_description "Rocq engineer wanted" initial_state,
     [Message Info "Upload a PDF resume to get started."]).
Proof.
  split; [reflexivity|]. split; [reflexivity|].
  exact (proj1 (script_without_upload sample_key sample_fitz (constant_api "Sure.")
                  (mkInputs "Rocq engineer wanted" None (Some MatchBtn) (Some "Hi"))
                  initial_state eq_refl) eq_refl).
Defined.

(** X14.  After every run the stored job description is the text of the
    text area: the first statement of the script stores it and no handler
    writes it afterwards. *)
Theorem script_stores_job_description
        (API_KEY : option string) (fitz_open : list Byte.byte -> PdfOutcome)
        (generate_content : string -> ApiResponse)
        (i : Inputs) (s : SessionState) :
  job_description (state_of (script API_KEY fitz_open generate_content i s))
  = jd_input i.
Proof.
  rewrite script_state. cbv zeta.
  upload_cases fitz_open (pdf_uploader i) (set_job_description (jd_input i) s);
    match goal with
    | |- context [if pdf_processed ?s1 then _ else _] =>
        destruct (pdf_processed s1); [|reflexivity];
        destruct (clicked i) as [b|];
          [press_cases_in API_KEY generate_content b s1|]
    end;
    (destruct (chat_input i) as [q|]; [destruct (truthy q)|]);
    try match goal with
        | |- context [chat_turn ?k ?g ?q ?s0] => chat_cases_in k g q s0
        end;
    reflexivity.
Qed.

(** ** Invariants of a session *)

Lemma consistent_rerun API_KEY fitz_open generate_content (i : Inputs) (s : SessionState) :
  consistent s ->
  consistent (state_of (script API_KEY fitz_open generate_content i s)).
Proof.
  intros (Hscore & Hstart & Hend & Hiff & Htext).
  assert (H0 : consistent (set_job_description (jd_input i) s))
    by (unfold consistent; cbn; auto).
  rewrite script_state. cbv zeta.
  assert (H1 : consistent (state_of (process_upload fitz_open (pdf_uploader i)
                                       (set_job_description (jd_input i) s)))).
  { upload_cases fitz_open (pdf_uploader i) (set_job_description (jd_input i) s).
    - exact H0.
    - unfold consistent. cbn.
      split; [lia|]. split; [assumption|]. split; [assumption|].
      split; [|reflexivity || (intros _; assumption)].
      split; [intros _; now exists (name f) | reflexivity].
    - unfold consistent. cbn.
      split; [exact Hscore|]. split; [exact Hstart|]. split; [exact Hend|].
      split; [|discriminate].
      split; [discriminate | intros [n Hn]; discriminate Hn]. }
  set (s1 := state_of (process_upload fitz_open (pdf_uploader i)
                                      (set_job_description (jd_input i) s))) in *.
  clearbody s1. destruct (pdf_processed s1) eqn:Hp; [|exact H1].
  assert (H2 : consistent (match clicked i with
                           | Some b => state_of (press API_KEY generate_content b s1)
                           | None => s1
                           end)).
  { destruct (clicked i) as [b|]; [|exact H1].
    press_cases_in API_KEY generate_content b s1; [exact H1|].
    destruct H1 as (_ & H1b & H1c & H1d & H1e). unfold consistent. cbn. auto. }
  set (s2 := match clicked i with
             | Some b => state_of (press API_KEY generate_content b s1)
             | None => s1
             end) in *.
  clearbody s2. destruct (chat_input i) as [q|]; [|exact H2].
  destruct (truthy q); [|exact H2].
  chat_cases_in API_KEY generate_content q s2; [exact H2|].
  destruct H2 as (H2a & H2b & H2c & H2d & H2e). unfold consistent. cbn. auto.
Qed.

(** X15.  In every state a session can reach, the score is between 0 and
    100, the resume text has no whitespace at its ends, a resume counts as
    processed exactly when the name of a processed file is recorded, and a
    processed resume has a non-empty text: Summary and Improvements, which
    are only offered for a processed resume, always have the field they
    need. *)
Theorem reachable_is_consistent (s : SessionState) :
  reachable s ->
  consistent s /\
  (pdf_processed s = true -> ready SummaryBtn s = true /\ ready ImproveBtn s = true).
Proof.
  intros Hreach.
  assert (Hc : consistent s).
  { induction Hreach as [|K fitz g i s Hreach IH].
    - unfold consistent. cbn.
      split; [lia|]. split; [reflexivity|]. split; [reflexivity|].
      split; [|discriminate].
      split; [discriminate | intros [n Hn]; discriminate Hn].
    - now apply consistent_rerun. }
  split; [exact Hc|]. intros Hp. destruct Hc as (_ & _ & _ & _ & Htext).
  cbn [ready]. split; now apply Htext.
Qed.

Lemma reachable_is_consistent_witness :
  reachable (state_of (script sample_key sample_fitz (constant_api "Sure.")
                              first_question initial_state)) /\
  consistent (state_of (script sample_key sample_fitz (constant_api "Sure.")
                               first_question initial_state)).
Proof.
  assert (Hreach : reachable (state_of (script sample_key sample_fitz (constant_api "Sure.")
                                               first_question initial_state)))
    by (apply reach_rerun, reach_initial).
  split; [exact Hreach|].
  exact (proj1 (reachable_is_consistent _ Hreach)).
Defined.

Lemma dialogue_rerun API_KEY fitz_open generate_content (i : Inputs) (s : SessionState) :
  dialogue (chat_history s) ->
  dialogue (chat_history (state_of (script API_KEY fitz_open generate_content i s))).
Proof.
  intros Hd. rewrite script_state. cbv zeta.
  assert (H1 : dialogue (chat_history
                           (state_of (process_upload fitz_open (pdf_uploader i)
                                        (set_job_description (jd_input i) s))))).
  { upload_cases fitz_open (pdf_uploader i) (set_job_description (jd_input i) s);
      cbn; [exact Hd | constructor | exact Hd]. }
  set (s1 := state_of (process_upload fitz_open (pdf_uploader i)
                                      (set_job_description (jd_input i) s))) in *.
  clearbody s1. destruct (pdf_processed s1); [|exact H1].
  assert (H2 : dialogue (chat_history
                           (match clicked i with
                            | Some b => state_of (press API_KEY generate_content b s1)
                            | None => s1
                            end))).
  { destruct (clicked i) as [b|]; [|exact H1].
    press_cases_in API_KEY generate_content b s1; exact H1. }
  set (s2 := match clicked i with
             | Some b => state_of (press API_KEY generate_content b s1)
             | None => s1
             end) in *.
  clearbody s2. destruct (chat_input i) as [q|]; [|exact H2].
  destruct (truthy q) eqn:Hq; [|exact H2].
  chat_cases_in API_KEY generate_content q s2; [exact H2|].
  cbn [chat_history]. apply dialogue_turn; [exact H2 | | exact Hanswer].
  intros ->. discriminate Hq.
Qed.

(** X16.  In every state a session can reach, the chat history is a
    sequence of whole turns: each question, never empty, is a [user]
    message directly followed by an [assistant] message, never empty
    either (the reply of the model, a starred notice or the apology).  In
    particular its length is even. *)
Theorem reachable_chat_is_a_dialogue (s : SessionState) :
  reachable s ->
  dialogue (chat_history s) /\ Nat.Even (List.length (chat_history s)).
Proof.
  intros Hreach.
  assert (Hd : dialogue (chat_history s)).
  { induction Hreach as [|K fitz g i s Hreach IH].
    - constructor.
    - now apply dialogue_rerun. }
  split; [exact Hd|].
  induction Hd as [|history question answer Hd [k Hk] Hq Ha].
  - now exists 0%nat.
  - exists (S k). rewrite length_app. cbn [List.length]. lia.
Qed.

Lemma reachable_chat_is_a_dialogue_witness :
  reachable (state_of (script sample_key sample_fitz (constant_api "Sure.")
                              first_question initial_state)) /\
  chat_history (state_of (script sample_key sample_fitz (constant_api "Sure.")
                                 first_question initial_state))
  = [mkMsg "user" "What next?"; mkMsg "assistant" "Sure."] /\
  dialogue (chat_history (state_of (script sample_key sample_fitz (constant_api "Sure.")
                                           first_question initial_state))).
Proof.
  assert (Hreach : reachable (state_of (script sample_key sample_fitz (constant_api "Sure.")
                                               first_question initial_state)))
    by (apply reach_rerun, reach_initial).
  split; [exact Hreach|]. split; [reflexivity|].
  exact (proj1 (reachable_chat_is_a_dialogue _ Hreach)).
Defined.

(** ** Start-up *)

(** X17.  Without a usable key the run shows the start-up error and stops
    before the session state is read or written and before anything is
    extracted or sent.  A value found in the secrets is the key even when
    it is empty: the environment variable is consulted only when the
    lookup in the secrets raises, so an empty secret stops the run
    whatever the environment holds. *)
Theorem startup_without_key
        (secrets : SecretsLookup) (getenv : option string)
        (fitz_open : list Byte.byte -> PdfOutcome)
        (generate_content : string -> ApiResponse)
        (i : Inputs) (s : SessionState) :
  (truthy_opt (load_api_key secrets getenv) = false ->
   app_py secrets getenv fitz_open generate_content i s
   = (tt, s, [Message Error key_missing_error]))
  /\ app_py (SecretFound "") getenv fitz_open generate_content i s
     = (tt, s, [Message Error key_missing_error])
  /\ (secrets = SecretKeyError \/ secrets = SecretsFileNotFound ->
      truthy_opt getenv = true ->
      app_py secrets getenv fitz_open generate_content i s
      = script getenv fitz_open generate_content i s).
Proof.
  split; [|split].
  - intros Hkey. unfold app_py. cbv zeta. now rewrite Hkey.
  - reflexivity.
  - intros [-> | ->] Henv; unfold app_py; cbn [load_api_key]; now rewrite Henv.
Qed.

Lemma startup_without_key_witness :
  truthy_opt (load_api_key SecretsFileNotFound None) = false /\
  app_py SecretsFileNotFound None sample_fitz (constant_api "Sure.")
         first_question analysed_state
  = (tt, analysed_state, [Message Error key_missing_error]).
Proof.
  split; [reflexivity|].
  exact (proj1 (startup_without_key SecretsFileNotFound None sample_fitz
                  (constant_api "Sure.") first_question analysed_state) eq_refl).
Defined.

(** ** The cost of a run *)

Lemma prompts_sent_process_upload fitz_open (uploaded_file : option UploadedFile)
      (s : SessionState) :
  prompts_sent (trace_of (process_upload fitz_open uploaded_file s)) = [].
Proof.
  destruct uploaded_file as [f|]; [|reflexivity].
  assert (Hshown : prompts_sent (trace_of (extract_text_from_pdf fitz_open (Some f) s)) = []).
  { unfold extract_text_from_pdf. run_ui. now destruct (fitz_open (getvalue f)). }
  destruct (is_new_file s f) eqn:Hnew.
  - rewrite (process_upload_new fitz_open f s Hnew). cbv zeta.
    destruct (truthy _); unfold trace_of at 1; cbn [snd];
      now rewrite prompts_sent_app, Hshown.
  - now rewrite (process_upload_old fitz_open f s Hnew).
Qed.

(** X18.  A run of the script calls the model at most once for the pressed
    button and at most once for the submitted question, and not at all
    otherwise: a rerun caused by anything else (typing the job
    description, uploading a file) sends no prompt. *)
Theorem script_api_budget
        (API_KEY : option string) (fitz_open : list Byte.byte -> PdfOutcome)
        (generate_content : string -> ApiResponse)
        (i : Inputs) (s : SessionState) :
  (List.length (prompts_sent (trace_of (script API_KEY fitz_open generate_content i s)))
   <= (match clicked i with Some _ => 1 | None => 0 end)
      + (match chat_input i with Some _ => 1 | None => 0 end))%nat.
Proof.
  unfold script.
  rewrite trace_bind, prompts_sent_app. cbn [modify trace_of state_of result_of fst snd].
  rewrite trace_bind, prompts_sent_app, prompts_sent_process_upload.
  set (s1 := state_of (process_upload fitz_open (pdf_uploader i)
                                      (set_job_description (jd_input i) s))).
  rewrite trace_bind, prompts_sent_app. cbn [get trace_of state_of result_of fst snd].
  cbn [prompts_sent app List.length].
  destruct (pdf_processed s1); [|cbn; lia].
  rewrite trace_bind, prompts_sent_app, length_app.
  set (s2 := state_of (match clicked i with
                       | Some b => press API_KEY generate_content b
                       | None => ret tt
                       end s1)).
  rewrite trace_bind, prompts_sent_app. cbn [get trace_of state_of result_of fst snd].
  rewrite trace_bind, prompts_sent_app, prompts_sent_show_history, show_history_state.
  cbn [prompts_sent app].
  apply Nat.add_le_mono.
  - destruct (clicked i) as [b|]; [|cbn; lia].
    rewrite prompts_sent_press. destruct (ready b s1 && truthy_opt API_KEY); cbn; lia.
  - destruct (chat_input i) as [q|]; [|cbn; lia].
    destruct (truthy q); [apply prompts_sent_chat_turn | cbn; lia].
Qed.

(** ** A reply without a score *)

(** X19.  % Match on a reply that has no leading score line: the button
    shows the parse warning, stores score 0 and, under the heading, the
    whole reply as it came, without trimming. *)
Theorem match_btn_without_score
        (API_KEY : option string) (generate_content : string -> ApiResponse)
        (text : string) (s : SessionState) :
  truthy_opt API_KEY = true ->
  ready MatchBtn s = true ->
  generate_content (prompt_of MatchBtn s) = RespText text ->
  ~ leading_score_line text ->
  press API_KEY generate_content MatchBtn s
  = (tt,
     mkState (job_description s) (resume_text s)
             ("**ATS Score Explanation:**" ++ nl ++ nl ++ text) 0
             (chat_history s) (pdf_processed s) (processed_file_name s),
     [ApiCall (prompt_of MatchBtn s);
      Message Warning "Could not parse ATS score from the response."]).
Proof.
  intros Hkey Hready Hresp Hno.
  assert (Hnone : Re.re_match Re.score_pattern text = None).
  { destruct (Re.re_match Re.score_pattern text) as [m|] eqn:E; [|reflexivity].
    exfalso. apply Hno, ReFacts.match_score_iff. now exists m. }
  cbn [ready prompt_of] in *. unfold press, match_btn.
  unfold bind at 1, get. rewrite Hready. unfold bind at 1.
  rewrite (call_gemini_api_text _ _ _ _ s Hkey Hresp).
  unfold bind at 1. unfold parse_ats_score. rewrite Hnone. reflexivity.
Qed.

Lemma match_btn_without_score_witness :
  truthy_opt sample_key = true /\
  ready MatchBtn analysed_state = true /\
  ~ leading_score_line (" Score: 80" ++ nl) /\
  state_of (press sample_key (constant_api (" Score: 80" ++ nl)) MatchBtn analysed_state)
  = mkState "Rocq engineer wanted" "Jane Doe, engineer"
            ("**ATS Score Explanation:**" ++ nl ++ nl ++ " Score: 80" ++ nl) 0
            twelve_messages true (Some "old.pdf").
Proof.
  assert (Hno : ~ leading_score_line (" Score: 80" ++ nl)).
  { intros H. apply ReFacts.match_score_iff in H. destruct H as [m H].
    vm_compute in H. discriminate H. }
  split; [reflexivity|]. split; [reflexivity|]. split; [exact Hno|].
  rewrite (match_btn_without_score sample_key (constant_api (" Score: 80" ++ nl))
             (" Score: 80" ++ nl) analysed_state eq_refl eq_refl eq_refl Hno).
  reflexivity.
Defined.
